(** * Docylit: autosave scheduler, text statistics and AI assistance pipeline

    A shallow embedding of the logic of [src/App.tsx] and
    [src/services/geminiService.ts], followed by the theorems that settle
    the specification's claims about it.

    Layout: the modules [JS], [Stats], [Gemini] and [Editor] hold the
    definitions, each named after the source function it embeds, and
    [Samples] some concrete environments and states; the theorems come
    afterwards. *)

From Stdlib Require Import ZArith NArith Ascii String QArith.
From stdpp Require Import gmap strings list fin_maps.

Open Scope nat_scope.

(* ===================================================================== *)
(** * JavaScript strings *)
(* ===================================================================== *)

Module JS.

(** A JavaScript string is a finite sequence of UTF-16 code units;
    [length] is the [.length] property, [++] is concatenation and [[]] is
    the empty string. *)
Abbreviation jsstring := (list N).

(** A source literal (all literals of the program are ASCII). *)
Definition lit (s : string) : jsstring :=
  map N_of_ascii (list_ascii_of_string s).

Definition dquote : jsstring := [34%N].
Definition newline : jsstring := [10%N].

(** Truthiness of a string value: only the empty string is falsy. *)
Definition truthy (s : jsstring) : bool :=
  match s with [] => false | _ :: _ => true end.

(** Truthiness of a possibly [null]/[undefined] string. *)
Definition truthy_opt (o : option jsstring) : bool :=
  match o with Some s => truthy s | None => false end.

(** [a || b] on strings, with [a] possibly [null]/[undefined]. *)
Definition or_else (a : option jsstring) (b : jsstring) : jsstring :=
  match a with
  | Some s => if truthy s then s else b
  | None => b
  end.

(** The code units that [String.prototype.trim] strips and that the
    regular expression class [\s] matches: ECMAScript WhiteSpace
    (TAB, VT, FF, SP, NBSP, ZWNBSP and the Unicode space separators) and
    LineTerminator (LF, CR, LS, PS). *)
Definition is_white_space (c : N) : bool :=
  ((c =? 9) || (c =? 10) || (c =? 11) || (c =? 12) || (c =? 13)
   || (c =? 32) || (c =? 160) || (c =? 5760)
   || ((8192 <=? c) && (c <=? 8202))
   || (c =? 8232) || (c =? 8233) || (c =? 8239) || (c =? 8287)
   || (c =? 12288) || (c =? 65279))%N.

Fixpoint trimStart (s : jsstring) : jsstring :=
  match s with
  | [] => []
  | c :: s' => if is_white_space c then trimStart s' else s
  end.

Definition trimEnd (s : jsstring) : jsstring := rev (trimStart (rev s)).

(** [s.trim()] *)
Definition trim (s : jsstring) : jsstring := trimEnd (trimStart s).

(** [s.split(/\s+/)], scanning left to right.  [cur] holds, reversed, the
    code units of the segment being read; [in_sep] tells that the previous
    code unit belonged to a separator match, so that a run of white space
    is one separator.  A separator at the very start or the very end leaves
    an empty segment there, and the empty string splits into one empty
    segment, as in ECMAScript. *)
Fixpoint split_go (in_sep : bool) (cur : jsstring) (s : jsstring)
  : list jsstring :=
  match s with
  | [] => [rev cur]
  | c :: s' =>
      if is_white_space c then
        if in_sep then split_go true [] s'
        else rev cur :: split_go true [] s'
      else split_go false (c :: cur) s'
  end.

Definition split_ws (s : jsstring) : list jsstring := split_go false [] s.

End JS.

(* ===================================================================== *)
(** * Stats Engine *)
(* ===================================================================== *)

Module Stats.
Import JS.

Record TextStats := { words : nat; chars : nat }.

(** The body of [updateStats] (App.tsx, lines 74-75) on the text read from
    the editing surface. *)
Definition computeStats (text : jsstring) : TextStats :=
  {| words := if decide (trim text = []) then 0
              else length (split_ws (trim text));
     chars := length text |}.

(** The number of maximal runs of non-white-space code units of a text;
    [prev_ws] tells that the position before the text is a boundary. *)
Fixpoint word_runs (prev_ws : bool) (s : jsstring) : nat :=
  match s with
  | [] => 0
  | c :: s' =>
      if is_white_space c then word_runs true s'
      else (if prev_ws then 1 else 0) + word_runs false s'
  end.

(** Whether the text is empty or ends with a code unit that is not white
    space. *)
Fixpoint ends_word (s : jsstring) : bool :=
  match s with
  | [] => true
  | c :: s' => match s' with
               | [] => negb (is_white_space c)
               | _ :: _ => ends_word s'
               end
  end.

Definition not_white (c : N) : bool := negb (is_white_space c).

(** A word: a segment that is not empty and holds no white space. *)
Definition is_word (seg : jsstring) : bool :=
  truthy seg && forallb (fun c => negb (is_white_space c)) seg.

End Stats.

(* ===================================================================== *)
(** * AI Assistance Client ([src/services/geminiService.ts]) *)
(* ===================================================================== *)

Module Gemini.
Import JS.

Inductive Mode := Continue | Summarize | Fix | Tone | Custom.

#[global] Instance Mode_eq_dec : EqDecision Mode.
Proof. solve_decision. Defined.

(** What can be thrown: the [Error("API Key not found")] of [getAI], a
    rejection or failure coming from the backend SDK, and an exception
    raised by the caller's own [onChunk] callback. *)
Inductive Exn := ApiKeyNotFound | BackendFailure | CallbackFailure.

(** The argument of [ai.models.generateContent] and
    [ai.models.generateContentStream]. *)
Record GenerateRequest := {
  model : jsstring;
  contents : jsstring;
  systemInstruction : jsstring;
  temperature : option Q
}.

(** The client object built by [new GoogleGenAI({ apiKey })]. *)
Record Client := { apiKey : jsstring }.

(** Outcome of a single-shot backend call: the promise rejects, or it
    resolves to a response whose [text] may be [undefined]. *)
Inductive Response :=
| ResponseError
| ResponseText (text : option jsstring).

(** Outcome of a streaming backend call, as the [for await] loop sees it:
    a finite sequence of chunks, each with a possibly [undefined] [text],
    closed by the end of the stream or by a failure.  A call that fails
    before the first chunk (also when opening the stream) is
    [StreamError]. *)
Inductive Stream :=
| StreamEnd
| StreamError
| StreamChunk (text : option jsstring) (rest : Stream).

(** The environment of the service: the credential in [process.env] and
    the behaviour of the third-party backend. *)
Record Env := {
  API_KEY : option jsstring;
  generateContent : Client -> GenerateRequest -> Response;
  generateContentStream : Client -> GenerateRequest -> Stream
}.

(** Observable effects: lines written with [console.error], the requests
    that reached the backend, and the invocations of [onChunk]. *)
Record Log := {
  console : list (jsstring * option Exn);
  dispatched : list (Client * GenerateRequest);
  delivered : list jsstring
}.

Definition no_effects : Log :=
  {| console := []; dispatched := []; delivered := [] |}.

(** ** Computations that log and may throw *)

Inductive Completion (A : Type) :=
| Normal (a : A)
| Throw (e : Exn).
Arguments Normal {A} a.
Arguments Throw {A} e.

Definition M (A : Type) : Type := Log -> Completion A * Log.

Definition ret {A} (a : A) : M A := fun l => (Normal a, l).

Definition throw {A} (e : Exn) : M A := fun l => (Throw e, l).

Definition bind {A B} (c : M A) (k : A -> M B) : M B :=
  fun l =>
    match c l with
    | (Normal a, l') => k a l'
    | (Throw e, l') => (Throw e, l')
    end.

(** [try { body } catch (error) { handler }] *)
Definition try_catch {A} (body : M A) (handler : Exn -> M A) : M A :=
  fun l =>
    match body l with
    | (Normal a, l') => (Normal a, l')
    | (Throw e, l') => handler e l'
    end.

Notation "'let*' x := c 'in' k" := (bind c (fun x => k))
  (at level 10, x name, c at level 100, k at level 200).
Notation "c ;;; k" := (bind c (fun _ => k))
  (at level 100, k at level 200, right associativity).

Definition console_error (msg : jsstring) (e : option Exn) : M unit :=
  fun l => (Normal tt,
            {| console := console l ++ [(msg, e)];
               dispatched := dispatched l;
               delivered := delivered l |}).

Definition record_dispatch (ai : Client) (req : GenerateRequest) : M unit :=
  fun l => (Normal tt,
            {| console := console l;
               dispatched := dispatched l ++ [(ai, req)];
               delivered := delivered l |}).

(** [await ai.models.generateContent(req)] *)
Definition call_generateContent (env : Env) (ai : Client)
    (req : GenerateRequest) : M (option jsstring) :=
  record_dispatch ai req ;;;
  match generateContent env ai req with
  | ResponseText t => ret t
  | ResponseError => throw BackendFailure
  end.

(** [await ai.models.generateContentStream(req)]; the failures of the
    stream are raised by the loop that consumes it. *)
Definition call_generateContentStream (env : Env) (ai : Client)
    (req : GenerateRequest) : M Stream :=
  record_dispatch ai req ;;;
  ret (generateContentStream env ai req).

(** A call of the caller's callback: the invocation is recorded, and the
    callback returns or throws as [throws] tells. *)
Definition call_onChunk (throws : jsstring -> bool) (text : jsstring)
  : M unit :=
  fun l =>
    (if throws text then Throw CallbackFailure else Normal tt,
     {| console := console l;
        dispatched := dispatched l;
        delivered := delivered l ++ [text] |}).

(** ** The service functions *)

(** [new GoogleGenAI({ apiKey: process.env.API_KEY })] *)
Definition client_of (env : Env) : Client :=
  {| apiKey := default [] (API_KEY env) |}.

(** [getAI], lines 3-9. *)
Definition getAI (env : Env) : M Client :=
  if negb (truthy_opt (API_KEY env)) then
    console_error (lit "API_KEY is missing from environment variables") None ;;;
    throw ApiKeyNotFound
  else
    ret (client_of env).

Definition preamble : jsstring :=
  lit "You are a helpful writing assistant integrated into a document editor. ".

(** The [if]/[else if] chain of lines 18-30. *)
Definition systemInstruction_of (mode : Mode) : jsstring :=
  preamble ++
  match mode with
  | Continue => lit "Continue the text naturally based on the provided context. Keep formatting simple (HTML/Markdown)."
  | Summarize => lit "Provide a concise summary of the provided text."
  | Fix => lit "Fix grammar and spelling errors in the provided text without changing the meaning."
  | Tone => lit "Rewrite the text to be more professional and concise."
  | Custom => lit "Follow the user's specific instructions for the provided text."
  end.

Definition apology : jsstring :=
  lit "Sorry, I encountered an error while processing your request.".

Definition stream_error_chunk : jsstring :=
  lit "[Error: Failed to generate content]".

Definition model_name : jsstring := lit "gemini-2.5-flash".

(** The template literal of line 34. *)
Definition generate_contents (prompt context : jsstring) : jsstring :=
  lit "Context/Current Text: " ++ dquote ++ context ++ dquote
  ++ newline ++ newline ++ lit "Task: " ++ prompt.

(** The template literal of line 57. *)
Definition stream_contents (prompt context : jsstring) : jsstring :=
  lit "Context: " ++ dquote ++ context ++ dquote
  ++ newline ++ newline ++ lit "Instruction: " ++ prompt.

Definition generate_request (prompt context : jsstring) (mode : Mode)
  : GenerateRequest :=
  {| model := model_name;
     contents := generate_contents prompt context;
     systemInstruction := systemInstruction_of mode;
     temperature := Some (7 # 10)%Q |}.

Definition stream_request (prompt context : jsstring) : GenerateRequest :=
  {| model := model_name;
     contents := stream_contents prompt context;
     systemInstruction :=
       lit "You are an intelligent writing assistant. Return raw text or simple HTML suitable for a contentEditable div.";
     temperature := None |}.

(** [generateWritingAssistance], lines 11-46. *)
Definition generateWritingAssistance (env : Env)
    (prompt context : jsstring) (mode : Mode) : M jsstring :=
  try_catch
    (let* ai := getAI env in
     let* response_text :=
       call_generateContent env ai (generate_request prompt context mode) in
     ret (or_else response_text []))
    (fun error =>
       console_error (lit "Gemini API Error:") (Some error) ;;;
       ret apology).

(** The [for await (const chunk of responseStream)] loop, lines 63-67. *)
Fixpoint for_await_chunks (throws : jsstring -> bool) (s : Stream) : M unit :=
  match s with
  | StreamEnd => ret tt
  | StreamError => throw BackendFailure
  | StreamChunk text rest =>
      (if truthy_opt text
       then call_onChunk throws (default [] text)
       else ret tt) ;;;
      for_await_chunks throws rest
  end.

(** [streamWritingAssistance], lines 48-72. *)
Definition streamWritingAssistance (env : Env)
    (prompt context : jsstring) (throws : jsstring -> bool) : M unit :=
  try_catch
    (let* ai := getAI env in
     let* responseStream :=
       call_generateContentStream env ai (stream_request prompt context) in
     for_await_chunks throws responseStream)
    (fun error =>
       console_error (lit "Gemini Stream Error:") (Some error) ;;;
       call_onChunk throws stream_error_chunk).

(** ** Reading a backend stream *)

(** The chunks a stream hands over before it ends or fails. *)
Fixpoint received_chunks (s : Stream) : list (option jsstring) :=
  match s with
  | StreamEnd | StreamError => []
  | StreamChunk text rest => text :: received_chunks rest
  end.

(** Whether the stream is closed by a failure. *)
Fixpoint stream_fails (s : Stream) : bool :=
  match s with
  | StreamEnd => false
  | StreamError => true
  | StreamChunk _ rest => stream_fails rest
  end.

(** The texts of the chunks that carry one: present and not empty. *)
Fixpoint text_bearing (chunks : list (option jsstring)) : list jsstring :=
  match chunks with
  | [] => []
  | text :: rest =>
      if truthy_opt text then default [] text :: text_bearing rest
      else text_bearing rest
  end.

(** The backend's answer to the request that [generateWritingAssistance]
    sends, and to the one that [streamWritingAssistance] sends. *)
Definition backend_response (env : Env) (prompt context : jsstring)
    (mode : Mode) : Response :=
  generateContent env (client_of env) (generate_request prompt context mode).

Definition backend_stream (env : Env) (prompt context : jsstring) : Stream :=
  generateContentStream env (client_of env) (stream_request prompt context).

(** The texts a callback is invoked with when the loop offers it [texts]
    in order: the loop stops at the first invocation that throws. *)
Fixpoint handed_over (throws : jsstring -> bool) (texts : list jsstring)
  : list jsstring :=
  match texts with
  | [] => []
  | text :: rest =>
      if throws text then [text] else text :: handed_over throws rest
  end.

(** The separators that the two templates put between the context and
    the prompt. *)
Definition task_separator : jsstring :=
  dquote ++ newline ++ newline ++ lit "Task: ".

Definition instruction_separator : jsstring :=
  dquote ++ newline ++ newline ++ lit "Instruction: ".

End Gemini.

(* ===================================================================== *)
(** * The editor component ([src/App.tsx]) *)
(* ===================================================================== *)

Module Editor.
Import JS Stats.

(** What the program reads from the page: the markup and the plain text
    of the editing surface ([editorRef.current.innerHTML], [.innerText])
    and the text of the current selection
    ([window.getSelection()?.toString()]). *)
Record Dom := {
  innerHTML : jsstring;
  innerText : jsstring;
  selectionText : jsstring
}.

(** A pending [setTimeout] of the save callback: its handle, the time at
    which it is due, and the [title] its closure captured. *)
Record Timer := {
  timer_id : positive;
  deadline : Z;
  saved_title : jsstring
}.

(** The [useState] cells of [App]. *)
Record React := {
  title : jsstring;
  content : jsstring;
  lastSaved : option Z;
  isSaving : bool;
  showAiModal : bool;
  stats : TextStats;
  aiPrompt : jsstring;
  aiLoading : bool;
  aiResponse : option jsstring
}.

(** The browser: the page, whether [editorRef.current] is set, the durable
    store with the trace of its [setItem] calls, the pending timers in the
    order they were scheduled, the next timer handle and the clock
    (milliseconds). *)
Record Browser := {
  dom : Dom;
  editorMounted : bool;
  localStorage : gmap string jsstring;
  writes : list (string * jsstring);
  timers : list Timer;
  next_timer : positive;
  now : Z
}.

Record State := {
  ui : React;
  saveTimeoutRef : option positive;
  page : Browser;
  svc : Gemini.Log
}.

Definition content_key : string := "docylit-content".
Definition title_key : string := "docylit-title".

(** The debounce delay of [handleInput], in milliseconds. *)
Definition SAVE_DELAY : Z := 1000.

(** ** State updates *)

Definition set_title v (r : React) : React :=
  Build_React v (content r) (lastSaved r) (isSaving r) (showAiModal r) (stats r) (aiPrompt r) (aiLoading r) (aiResponse r).
Definition set_lastSaved v (r : React) : React :=
  Build_React (title r) (content r) v (isSaving r) (showAiModal r) (stats r) (aiPrompt r) (aiLoading r) (aiResponse r).
Definition set_isSaving v (r : React) : React :=
  Build_React (title r) (content r) (lastSaved r) v (showAiModal r) (stats r) (aiPrompt r) (aiLoading r) (aiResponse r).
Definition set_showAiModal v (r : React) : React :=
  Build_React (title r) (content r) (lastSaved r) (isSaving r) v (stats r) (aiPrompt r) (aiLoading r) (aiResponse r).
Definition set_stats v (r : React) : React :=
  Build_React (title r) (content r) (lastSaved r) (isSaving r) (showAiModal r) v (aiPrompt r) (aiLoading r) (aiResponse r).
Definition set_aiPrompt v (r : React) : React :=
  Build_React (title r) (content r) (lastSaved r) (isSaving r) (showAiModal r) (stats r) v (aiLoading r) (aiResponse r).
Definition set_aiLoading v (r : React) : React :=
  Build_React (title r) (content r) (lastSaved r) (isSaving r) (showAiModal r) (stats r) (aiPrompt r) v (aiResponse r).
Definition set_aiResponse v (r : React) : React :=
  Build_React (title r) (content r) (lastSaved r) (isSaving r) (showAiModal r) (stats r) (aiPrompt r) (aiLoading r) v.

Definition set_dom v (b : Browser) : Browser :=
  Build_Browser v (editorMounted b) (localStorage b) (writes b) (timers b) (next_timer b) (now b).
Definition set_timers v (b : Browser) : Browser :=
  Build_Browser (dom b) (editorMounted b) (localStorage b) (writes b) v (next_timer b) (now b).
Definition set_now v (b : Browser) : Browser :=
  Build_Browser (dom b) (editorMounted b) (localStorage b) (writes b) (timers b) (next_timer b) v.

Definition with_ui (f : React -> React) (s : State) : State :=
  Build_State (f (ui s)) (saveTimeoutRef s) (page s) (svc s).
Definition with_page (f : Browser -> Browser) (s : State) : State :=
  Build_State (ui s) (saveTimeoutRef s) (f (page s)) (svc s).
Definition set_saveTimeoutRef v (s : State) : State :=
  Build_State (ui s) v (page s) (svc s).
Definition set_svc v (s : State) : State :=
  Build_State (ui s) (saveTimeoutRef s) (page s) v.

(** ** Browser primitives *)

(** [localStorage.setItem(key, value)] *)
Definition setItem (key : string) (value : jsstring) (b : Browser) : Browser :=
  Build_Browser (dom b) (editorMounted b) (<[key := value]> (localStorage b))
    (writes b ++ [(key, value)]) (timers b) (next_timer b) (now b).

(** [clearTimeout(id)]: a handle that is not pending is ignored. *)
Definition clearTimeout (id : positive) (b : Browser) : Browser :=
  set_timers (filter (fun tm => timer_id tm <> id) (timers b)) b.

(** [setTimeout(callback, delay)] for a save callback whose closure holds
    [captured]; returns the fresh handle. *)
Definition setTimeout (captured : jsstring) (delay : Z) (b : Browser)
  : positive * Browser :=
  let id := next_timer b in
  (id,
   Build_Browser (dom b) (editorMounted b) (localStorage b) (writes b)
     (timers b ++ [{| timer_id := id; deadline := (now b + delay)%Z;
                      saved_title := captured |}])
     (Pos.succ id) (now b)).

(** ** Persistence and stats *)

(** [updateStats], lines 70-78. *)
Definition updateStats (s : State) : State :=
  if editorMounted (page s) then
    let text := or_else (Some (innerText (dom (page s)))) [] in
    with_ui (set_stats (computeStats text)) s
  else s.

(** The callback given to [setTimeout] in [handleInput], lines 108-116;
    [captured] is the [title] of the render that created it. *)
Definition save_callback (captured : jsstring) (s : State) : State :=
  if editorMounted (page s) then
    let html := innerHTML (dom (page s)) in
    let s := with_page (setItem content_key html) s in
    let s := with_page (setItem title_key captured) s in
    let s := with_ui (set_lastSaved (Some (now (page s)))) s in
    with_ui (set_isSaving false) s
  else s.

(** [handleInput], lines 98-117.  A timer handle is a positive integer,
    so the test of line 103 succeeds exactly when a handle is stored. *)
Definition handleInput (s : State) : State :=
  let s := updateStats s in
  let s := with_ui (set_isSaving true) s in
  let s := match saveTimeoutRef s with
           | Some id => with_page (clearTimeout id) s
           | None => s
           end in
  let '(id, b) := setTimeout (title (ui s)) SAVE_DELAY (page s) in
  set_saveTimeoutRef (Some id) (with_page (fun _ => b) s).

(** The title field's [onChange] ([setTitle], line 190) followed by the
    effect of lines 120-122, which React runs when [title] has changed; a
    [setTitle] with the current value causes no render and no effect. *)
Definition changeTitle (v : jsstring) (s : State) : State :=
  if decide (v = title (ui s)) then s
  else with_page (setItem title_key v) (with_ui (set_title v) s).

(** ** The event loop *)

(** The callback of a due timer is called, no earlier than its
    deadline. *)
Definition run_timer (tm : Timer) (s : State) : State :=
  let s := with_page (fun b => set_now (Z.max (now b) (deadline tm)) b) s in
  save_callback (saved_title tm) s.

Definition is_due (t : Z) (tm : Timer) : bool := (deadline tm <=? t)%Z.

(** Time passes until [t]: the timers due by then leave the pending list
    and run, oldest first. *)
Definition advance_to (t : Z) (s : State) : State :=
  let due := filter (fun tm => is_due t tm = true) (timers (page s)) in
  let rest := filter (fun tm => is_due t tm = false) (timers (page s)) in
  let s := with_page (set_timers rest) s in
  let s := foldl (fun s tm => run_timer tm s) s due in
  with_page (fun b => set_now (Z.max (now b) t) b) s.

(** The user edits the document: the browser changes the page to [d] and
    fires the surface's [onInput], line 285. *)
Definition user_edit (d : Dom) (s : State) : State :=
  handleInput (with_page (set_dom d) s).

Definition is_overdue (t : Z) (tm : Timer) : bool := (deadline tm <? t)%Z.

(** Time passes until an event that arrives at [t]: only the timers due
    before [t] have run by then.  A timer due at [t] itself is still
    pending when the handler of the event runs, since a timer never runs
    before its delay has passed. *)
Definition advance_before (t : Z) (s : State) : State :=
  let due := filter (fun tm => is_overdue t tm = true) (timers (page s)) in
  let rest := filter (fun tm => is_overdue t tm = false) (timers (page s)) in
  let s := with_page (set_timers rest) s in
  let s := foldl (fun s tm => run_timer tm s) s due in
  with_page (fun b => set_now (Z.max (now b) t) b) s.

(** A burst of further edits, each given with the time elapsed since the
    previous event. *)
Fixpoint edit_burst (rest : list (Z * Dom)) (s : State) : State :=
  match rest with
  | [] => s
  | (gap, d) :: rest' =>
      edit_burst rest' (user_edit d (advance_before (now (page s) + gap) s))
  end.

(** The edited page as of the last event of a burst that starts with the
    page [d0]. *)
Definition last_dom (d0 : Dom) (rest : list (Z * Dom)) : Dom :=
  List.last (map snd rest) d0.

(** The timer that [handleInput] schedules when called in state [s]. *)
Definition save_timer (s : State) : Timer :=
  {| timer_id := next_timer (page s);
     deadline := (now (page s) + SAVE_DELAY)%Z;
     saved_title := title (ui s) |}.

(** The scheduler's invariant: a timer that is pending is the one whose
    handle [saveTimeoutRef] holds. *)
Definition pending_is_tracked (s : State) : Prop :=
  Forall (fun tm => saveTimeoutRef s = Some (timer_id tm)) (timers (page s)).

(** A save is scheduled a full delay from now, by the current render. *)
Definition armed (s : State) : Prop :=
  exists id,
    saveTimeoutRef s = Some id /\
    timers (page s) =
      [{| timer_id := id;
          deadline := (now (page s) + SAVE_DELAY)%Z;
          saved_title := title (ui s) |}].

(** The two [setItem] calls of one save of the page [d] by a callback
    that captured [captured]. *)
Definition save_writes (captured : jsstring) (d : Dom)
  : list (string * jsstring) :=
  [(content_key, innerHTML d); (title_key, captured)].

(** No save is pending and the saving flag is off, or one save is
    pending, tracked by [saveTimeoutRef], and the flag is on. *)
Definition scheduler_consistent (s : State) : Prop :=
  (timers (page s) = [] /\ isSaving (ui s) = false) \/
  (exists tm, timers (page s) = [tm] /\
              saveTimeoutRef s = Some (timer_id tm) /\
              isSaving (ui s) = true).

(** The counts on display are those of the text on the surface. *)
Definition stats_current (s : State) : Prop :=
  stats (ui s) = computeStats (innerText (dom (page s))).

(** ** Loading *)

Definition set_content v (r : React) : React :=
  Build_React (title r) v (lastSaved r) (isSaving r) (showAiModal r) (stats r) (aiPrompt r) (aiLoading r) (aiResponse r).

(** The initial values of the [useState] cells, lines 49-66. *)
Definition initial_ui : React :=
  {| title := lit "Untitled document"; content := []; lastSaved := None;
     isSaving := false; showAiModal := false;
     stats := {| words := 0; chars := 0 |};
     aiPrompt := []; aiLoading := false; aiResponse := None |}.

(** The markup of an empty document, line 92. *)
Definition EMPTY_DOCUMENT : jsstring := lit "<p><br></p>".

Section WithMarkup.

(** The assignment [editorRef.current.innerHTML = markup]: how the browser
    renders markup is opaque. *)
Variable setInnerHTML : jsstring -> Dom -> Dom.

(** The body of the effect of lines 80-95, apart from [setTitle], whose
    new value shows only in the next render. *)
Definition load_effect (s : State) : State :=
  let savedContent := localStorage (page s) !! content_key in
  let s := if truthy_opt savedContent
           then with_ui (set_content (default [] savedContent)) s
           else s in
  if editorMounted (page s) then
    let markup := or_else savedContent EMPTY_DOCUMENT in
    updateStats (with_page (fun b => set_dom (setInnerHTML markup (dom b)) b) s)
  else s.

(** The component mounts in the browser [b]: the first render has the
    initial state; its two effects run in order, the load effect and then
    the title effect of lines 120-122 with the title of that render; the
    [setTitle] of line 85, if any, then causes a second render, after
    which the title effect runs again if the title has changed. *)
Definition mount (b : Browser) (l : Gemini.Log) : State :=
  let s := {| ui := initial_ui; saveTimeoutRef := None; page := b; svc := l |} in
  let savedTitle := localStorage b !! title_key in
  let s := load_effect s in
  let s := with_page (setItem title_key (title (ui s))) s in
  if truthy_opt savedTitle then changeTitle (default [] savedTitle) s else s.

End WithMarkup.

Section WithSurface.

(** [document.execCommand(command, false, value)]: the editing surface is
    an opaque capability. *)
Variable execCommand : jsstring -> option jsstring -> Dom -> Dom.

(** [format], lines 126-130.  Giving the surface the focus changes nothing
    that the program reads. *)
Definition format (command : jsstring) (value : option jsstring)
    (s : State) : State :=
  let s := with_page (fun b => set_dom (execCommand command value (dom b)) b) s in
  handleInput s.

(** ** Assistance session *)

(** The canned instruction of lines 143-151. *)
Definition canned_prompt (mode : Gemini.Mode) : jsstring :=
  match mode with
  | Gemini.Summarize => lit "Summarize this text concisely."
  | Gemini.Fix => lit "Fix grammar, spelling, and punctuation errors."
  | Gemini.Tone => lit "Rewrite this to sound more professional and concise."
  | Gemini.Continue => lit "Continue writing naturally based on the context."
  | Gemini.Custom => lit "Help me write."
  end.

Definition controller_error : jsstring :=
  lit "Error generating content. Please try again.".

(** Line 139. *)
Definition capture_context (s : State) : jsstring :=
  or_else (Some (selectionText (dom (page s))))
    (or_else (if editorMounted (page s)
              then Some (innerText (dom (page s))) else None) []).

(** Lines 142-151. *)
Definition promptToSend (mode : Gemini.Mode) (s : State) : jsstring :=
  if truthy (aiPrompt (ui s)) then aiPrompt (ui s) else canned_prompt mode.

(** The guard of line 135. *)
Definition submit_rejected (mode : Gemini.Mode) (s : State) : bool :=
  negb (truthy (aiPrompt (ui s))) && bool_decide (mode = Gemini.Continue).

(** Lines 136-137: the session enters the loading state. *)
Definition handleAiRequest_loading (s : State) : State :=
  with_ui (set_aiResponse None) (with_ui (set_aiLoading true) s).

(** Lines 153-160: the client is called and the session settles on what
    it returns. *)
Definition handleAiRequest_settle (env : Gemini.Env) (mode : Gemini.Mode)
    (prompt context : jsstring) (s : State) : State :=
  let '(outcome, log) :=
    Gemini.generateWritingAssistance env prompt context mode (svc s) in
  let s := set_svc log s in
  let s := match outcome with
           | Gemini.Normal result => with_ui (set_aiResponse (Some result)) s
           | Gemini.Throw _ => with_ui (set_aiResponse (Some controller_error)) s
           end in
  with_ui (set_aiLoading false) s.

(** [handleAiRequest], lines 134-161.  The [await] is taken in one step:
    events that arrive while the request is in flight are not interleaved
    with it. *)
Definition handleAiRequest (env : Gemini.Env) (mode : Gemini.Mode)
    (s : State) : State :=
  if submit_rejected mode s then s
  else
    let s1 := handleAiRequest_loading s in
    handleAiRequest_settle env mode (promptToSend mode s) (capture_context s1) s1.

(** [insertAiContent], lines 163-172; [focus()] as in [format]. *)
Definition insertAiContent (s : State) : State :=
  match aiResponse (ui s) with
  | Some held =>
      if truthy held then
        let s := with_page
                   (fun b => set_dom (execCommand (lit "insertText") (Some held) (dom b)) b) s in
        let s := with_ui (set_aiResponse None) s in
        let s := with_ui (set_aiPrompt []) s in
        let s := with_ui (set_showAiModal false) s in
        handleInput s
      else s
  | None => s
  end.

(** The Discard button, line 364. *)
Definition discardAiContent (s : State) : State :=
  with_ui (set_aiResponse None) s.

(** ** Events *)

(** The service environment the component runs in. *)
Variable backend_env : Gemini.Env.

(** What can happen to the component: the handlers above, the two plain
    state setters wired in the markup (the prompt field, the modal's open
    and close buttons), and the passing of time. *)
Inductive Event :=
| Edit (d : Dom)
| ChangeTitle (v : jsstring)
| Format (command : jsstring) (value : option jsstring)
| TypePrompt (v : jsstring)
| ShowModal (open : bool)
| Submit (mode : Gemini.Mode)
| Insert
| Discard
| Wait (t : Z).

Definition step (e : Event) (s : State) : State :=
  match e with
  | Edit d => user_edit d s
  | ChangeTitle v => changeTitle v s
  | Format command value => format command value s
  | TypePrompt v => with_ui (set_aiPrompt v) s
  | ShowModal open => with_ui (set_showAiModal open) s
  | Submit mode => handleAiRequest backend_env mode s
  | Insert => insertAiContent s
  | Discard => discardAiContent s
  | Wait t => advance_to t s
  end.

Definition run (es : list Event) (s : State) : State :=
  foldl (fun s e => step e s) s es.

End WithSurface.

End Editor.

(* ===================================================================== *)
(** * Sample environments and states *)
(* ===================================================================== *)

Module Samples.
Import JS Stats Gemini Editor.

Definition never_throws : jsstring -> bool := fun _ => false.

(** No credential in [process.env]. *)
Definition env_no_key : Env :=
  {| API_KEY := None;
     generateContent := fun _ _ => ResponseText (Some (lit "Draft text."));
     generateContentStream := fun _ _ => StreamChunk (Some (lit "Draft")) StreamEnd |}.

(** A backend that answers. *)
Definition env_ok : Env :=
  {| API_KEY := Some (lit "secret");
     generateContent := fun _ _ => ResponseText (Some (lit "Draft text."));
     generateContentStream := fun _ _ =>
       StreamChunk (Some (lit "Draft ")) (StreamChunk (Some (lit "text.")) StreamEnd) |}.

(** A backend that fails: at once for a single-shot call, after one chunk
    for a streaming call. *)
Definition env_failing : Env :=
  {| API_KEY := Some (lit "secret");
     generateContent := fun _ _ => ResponseError;
     generateContentStream := fun _ _ =>
       StreamChunk (Some (lit "Draft ")) StreamError |}.

(** A backend that answers without text: no [text] in the single-shot
    response, and a chunk with an empty text in the stream. *)
Definition env_silent : Env :=
  {| API_KEY := Some (lit "secret");
     generateContent := fun _ _ => ResponseText None;
     generateContentStream := fun _ _ =>
       StreamChunk (Some []) (StreamChunk (Some (lit "a")) StreamEnd) |}.

(** An editing surface that appends inserted text and ignores every other
    command. *)
Definition append_surface (command : jsstring) (value : option jsstring)
    (d : Dom) : Dom :=
  if decide (command = lit "insertText") then
    {| innerHTML := innerHTML d ++ default [] value;
       innerText := innerText d ++ default [] value;
       selectionText := [] |}
  else d.

Definition dom_of (text : jsstring) : Dom :=
  {| innerHTML := lit "<p>" ++ text ++ lit "</p>";
     innerText := text;
     selectionText := [] |}.

(** The component just after it has loaded an empty store. *)
Definition fresh : State :=
  {| ui := {| title := lit "Untitled document"; content := [];
              lastSaved := None; isSaving := false; showAiModal := false;
              stats := {| words := 0; chars := 0 |};
              aiPrompt := []; aiLoading := false; aiResponse := None |};
     saveTimeoutRef := None;
     page := {| dom := dom_of [];
                editorMounted := true;
                localStorage := {[ title_key := lit "Untitled document" ]};
                writes := [];
                timers := [];
                next_timer := 1%positive;
                now := 0 |};
     svc := no_effects |}.

(** The same component with a save pending. *)
Definition typing : State := user_edit (dom_of (lit "Hello")) fresh.

(** The assistant open, holding the answer of a failed request. *)
Definition errored : State :=
  handleAiRequest env_failing Fix (with_ui (set_showAiModal true) fresh).

(** The assistant open, holding the answer of a successful request. *)
Definition responded : State :=
  handleAiRequest env_ok Fix (with_ui (set_showAiModal true) fresh).

(** A callback that throws when handed [bad]. *)
Definition throws_on (bad : jsstring) : jsstring -> bool :=
  fun text => bool_decide (text = bad).

(** A backend that streams three chunks. *)
Definition env_three_chunks : Env :=
  {| API_KEY := Some (lit "secret");
     generateContent := fun _ _ => ResponseText (Some (lit "Draft text."));
     generateContentStream := fun _ _ =>
       StreamChunk (Some (lit "a"))
         (StreamChunk (Some (lit "b")) (StreamChunk (Some (lit "c")) StreamEnd)) |}.

(** A surface that shows markup as it is written. *)
Definition literal_surface (markup : jsstring) (d : Dom) : Dom :=
  {| innerHTML := markup; innerText := markup;
     selectionText := selectionText d |}.

(** A browser that has never run the editor. *)
Definition blank_browser : Browser :=
  {| dom := {| innerHTML := []; innerText := []; selectionText := [] |};
     editorMounted := true;
     localStorage := ∅;
     writes := [];
     timers := [];
     next_timer := 1%positive;
     now := 0 |}.

(** A save pending in a component whose surface is gone. *)
Definition orphaned : State :=
  with_page (fun b => Build_Browser (dom b) false (localStorage b) (writes b)
                        (timers b) (next_timer b) (now b)) typing.

End Samples.

(* ===================================================================== *)
(** * Stats Engine: properties *)
(* ===================================================================== *)

Section StatsFacts.
Import JS Stats.

Lemma trimStart_app_last (l : jsstring) (c : N) :
  is_white_space c = false -> trimStart (l ++ [c]) = trimStart l ++ [c].
Proof.
  intros Hc. induction l as [|a l IH]; simpl.
  - by rewrite Hc.
  - destruct (is_white_space a); [exact IH | reflexivity].
Qed.

(** What [trimStart] removes is white space, and what it keeps does not
    start with white space. *)
Lemma trimStart_split (s : jsstring) :
  exists w, s = w ++ trimStart s /\ forallb is_white_space w = true.
Proof.
  induction s as [|c s [w [Hs Hw]]]; simpl.
  - by exists [].
  - destruct (is_white_space c) eqn:Hc.
    + exists (c :: w). simpl. rewrite Hc, Hw. split; [by f_equal | done].
    + by exists [].
Qed.

Lemma trimStart_head (s : jsstring) (c : N) (r : jsstring) :
  trimStart s = c :: r -> is_white_space c = false.
Proof.
  induction s as [|a s IH]; simpl; [done|].
  destruct (is_white_space a) eqn:Ha; [exact IH|].
  intros [= -> _]. exact Ha.
Qed.

(** A trimmed text is empty or has a first and a last code unit that are
    not white space. *)
Lemma trim_shape (s : jsstring) :
  trim s = [] \/
  exists c m d, is_white_space c = false /\ is_white_space d = false /\
                (trim s = c :: m ++ [d] \/ (trim s = [c] /\ c = d)).
Proof.
  unfold trim, trimEnd.
  destruct (trimStart s) as [|c u] eqn:Hu; [by left|].
  pose proof (trimStart_head _ _ _ Hu) as Hc.
  simpl rev. rewrite trimStart_app_last by exact Hc.
  rewrite rev_app_distr. simpl.
  destruct (trimStart (rev u)) as [|d v] eqn:Hv.
  - right. exists c, [], c. simpl. by auto.
  - right. exists c, (rev v), d. simpl.
    pose proof (trimStart_head _ _ _ Hv). by auto.
Qed.

Lemma word_runs_white (b : bool) (w : jsstring) :
  forallb is_white_space w = true -> word_runs b w = 0.
Proof.
  revert b. induction w as [|c w IH]; intros b; simpl; [done|].
  destruct (is_white_space c); simpl; [by auto | done].
Qed.

Lemma word_runs_app_white (b : bool) (s w : jsstring) :
  forallb is_white_space w = true -> word_runs b (s ++ w) = word_runs b s.
Proof.
  intros Hw. revert b. induction s as [|c s IH]; intros b; simpl.
  - by apply word_runs_white.
  - destruct (is_white_space c); by rewrite IH.
Qed.

Lemma word_runs_white_app (w s : jsstring) :
  forallb is_white_space w = true -> word_runs true (w ++ s) = word_runs true s.
Proof.
  induction w as [|c w IH]; simpl; [done|].
  destruct (is_white_space c); simpl; [exact IH | done].
Qed.

Lemma forallb_white_rev (w : jsstring) :
  forallb is_white_space (rev w) = forallb is_white_space w.
Proof.
  induction w as [|c w IH]; simpl; [done|].
  rewrite forallb_app, IH. simpl. by rewrite andb_true_r, andb_comm.
Qed.

Lemma word_runs_trim (s : jsstring) :
  word_runs true (trim s) = word_runs true s.
Proof.
  unfold trim, trimEnd.
  destruct (trimStart_split s) as [w [Hs Hw]].
  destruct (trimStart_split (rev (trimStart s))) as [w' [Hs' Hw']].
  rewrite Hs at 2. rewrite word_runs_white_app by exact Hw.
  apply (f_equal (@rev N)) in Hs'. rewrite rev_involutive, rev_app_distr in Hs'.
  rewrite Hs' at 2. symmetry. apply word_runs_app_white.
  by rewrite forallb_white_rev.
Qed.

Lemma ends_word_last (m : jsstring) (d : N) :
  is_white_space d = false -> ends_word (m ++ [d]) = true.
Proof.
  intros Hd. induction m as [|c m IH]; simpl.
  - by rewrite Hd.
  - destruct (m ++ [d]) eqn:E; [by destruct m | exact IH].
Qed.

(** Every path through [split_go] produces a segment. *)
Lemma split_go_nonempty (b : bool) (cur s : jsstring) :
  0 < length (split_go b cur s).
Proof.
  revert b cur. induction s as [|c s IH]; intros b cur; simpl; [lia|].
  destruct (is_white_space c); [destruct b; simpl; [apply IH | lia] | apply IH].
Qed.

(** On a text that does not end with white space, the segments of
    [split_go] are the words: one per maximal run of other code units. *)
Lemma split_go_word_runs (s : jsstring) :
  ends_word s = true ->
  (forall cur, length (split_go false cur s) = 1 + word_runs false s) /\
  (s <> [] -> length (split_go true [] s) = word_runs true s).
Proof.
  induction s as [|c s IH]; [done|].
  intros He. destruct s as [|c' s'].
  - simpl in He. apply negb_true_iff in He. simpl. by rewrite He.
  - assert (He' : ends_word (c' :: s') = true) by exact He.
    assert (Hne : c' :: s' <> []) by done.
    clear He. remember (c' :: s') as t eqn:Et. clear Et.
    destruct (IH He') as [IHa IHb]. clear IH.
    split.
    + intros cur. simpl. destruct (is_white_space c); simpl.
      * by rewrite (IHb Hne).
      * by rewrite IHa.
    + intros _. simpl. destruct (is_white_space c); simpl.
      * by apply IHb.
      * by rewrite IHa.
Qed.

Lemma split_trim_word_runs (text : jsstring) :
  trim text <> [] ->
  length (split_ws (trim text)) = word_runs true (trim text).
Proof.
  intros Hne. destruct (trim_shape text) as [E | (c & m & d & Hc & Hd & E)];
    [done|].
  assert (Hend : ends_word (trim text) = true).
  { destruct E as [-> | [-> ->]].
    - change (c :: m ++ [d]) with ((c :: m) ++ [d]). by apply ends_word_last.
    - simpl. by rewrite Hd. }
  unfold split_ws. rewrite (proj1 (split_go_word_runs _ Hend)).
  destruct E as [-> | [-> ->]]; simpl; by rewrite ?Hc, ?Hd.
Qed.

(** The word count is the number of maximal runs of code units that are
    not white space, whatever the text. *)
Lemma computeStats_words_runs (text : jsstring) :
  words (computeStats text) = word_runs true text.
Proof.
  unfold computeStats. simpl. case_decide as E.
  - rewrite <- word_runs_trim, E. done.
  - rewrite split_trim_word_runs by exact E. apply word_runs_trim.
Qed.

(** C3: for every text, [computeStats] reports the length of the text as
    its character count; its word count is 0 exactly when the trimmed text
    is empty, and otherwise it is the number of segments of the trimmed
    text split on runs of white space. *)
Theorem computeStats_spec (text : jsstring) :
  chars (computeStats text) = length text /\
  (words (computeStats text) = 0 <-> trim text = []) /\
  (trim text <> [] ->
   words (computeStats text) = length (split_ws (trim text))).
Proof.
  unfold computeStats. simpl. split; [reflexivity|]. split.
  - case_decide as E; [done|]. split; [|done].
    pose proof (split_go_nonempty false [] (trim text)). unfold split_ws. lia.
  - intros Hne. by case_decide.
Qed.

(** The end-to-end figures of the specification. *)
Example stats_hello_world :
  computeStats (lit "Hello world") = {| words := 2; chars := 11 |}.
Proof. reflexivity. Qed.

Example stats_blank :
  computeStats [32; 160; 10; 8195]%N = {| words := 0; chars := 4 |}.
Proof. reflexivity. Qed.

Example split_keeps_boundary_segments :
  split_ws (lit " a  b ") = [[]; lit "a"; lit "b"; []].
Proof. reflexivity. Qed.

End StatsFacts.

(* ===================================================================== *)
(** * AI Assistance Client: properties *)
(* ===================================================================== *)

Section ClientFacts.
Import JS Gemini.

Lemma getAI_missing (env : Env) (l : Log) :
  truthy_opt (API_KEY env) = false ->
  getAI env l =
    (Throw ApiKeyNotFound,
     {| console := console l ++
          [(lit "API_KEY is missing from environment variables", None)];
        dispatched := dispatched l;
        delivered := delivered l |}).
Proof. intros H. unfold getAI. by rewrite H. Qed.

Lemma getAI_configured (env : Env) (l : Log) :
  truthy_opt (API_KEY env) = true -> getAI env l = (Normal (client_of env), l).
Proof. intros H. unfold getAI. by rewrite H. Qed.

(** The single-shot call, once the credential is there, by the answer of
    the backend. *)
Lemma generate_configured (env : Env) (prompt context : jsstring)
    (mode : Mode) (l : Log) :
  truthy_opt (API_KEY env) = true ->
  generateWritingAssistance env prompt context mode l =
    match backend_response env prompt context mode with
    | ResponseText t =>
        (Normal (or_else t []),
         {| console := console l;
            dispatched := dispatched l ++
              [(client_of env, generate_request prompt context mode)];
            delivered := delivered l |})
    | ResponseError =>
        (Normal apology,
         {| console := console l ++
              [(lit "Gemini API Error:", Some BackendFailure)];
            dispatched := dispatched l ++
              [(client_of env, generate_request prompt context mode)];
            delivered := delivered l |})
    end.
Proof.
  intros H. unfold generateWritingAssistance, try_catch, bind.
  rewrite (getAI_configured _ _ H).
  unfold call_generateContent, bind, record_dispatch, backend_response.
  by destruct (generateContent env _ _).
Qed.

Lemma generate_missing (env : Env) (prompt context : jsstring)
    (mode : Mode) (l : Log) :
  truthy_opt (API_KEY env) = false ->
  generateWritingAssistance env prompt context mode l =
    (Normal apology,
     {| console := (console l ++
          [(lit "API_KEY is missing from environment variables", None)]) ++
          [(lit "Gemini API Error:", Some ApiKeyNotFound)];
        dispatched := dispatched l;
        delivered := delivered l |}).
Proof.
  intros H. unfold generateWritingAssistance, try_catch, bind.
  by rewrite (getAI_missing _ _ H).
Qed.

(** No call of [generateWritingAssistance] completes abruptly. *)
Lemma generate_returns (env : Env) (prompt context : jsstring)
    (mode : Mode) (l : Log) :
  exists text,
    fst (generateWritingAssistance env prompt context mode l) = Normal text.
Proof.
  destruct (truthy_opt (API_KEY env)) eqn:H.
  - rewrite (generate_configured _ _ _ _ _ H).
    destruct (backend_response env prompt context mode); by eexists.
  - rewrite (generate_missing _ _ _ _ _ H). by eexists.
Qed.

(** The loop over a stream, for a callback that returns normally: the
    chunks with a text are handed over in order, and the loop ends as the
    stream does. *)
Lemma for_await_chunks_trace (throws : jsstring -> bool) (s : Stream) (l : Log) :
  (forall text, throws text = false) ->
  for_await_chunks throws s l =
    (if stream_fails s then Throw BackendFailure else Normal tt,
     {| console := console l;
        dispatched := dispatched l;
        delivered := delivered l ++ text_bearing (received_chunks s) |}).
Proof.
  intros Hcb. revert l. induction s as [| |text rest IH]; intros l; simpl.
  - unfold ret. rewrite app_nil_r. by destruct l.
  - unfold throw. rewrite app_nil_r. by destruct l.
  - unfold bind. destruct (truthy_opt text).
    + unfold call_onChunk. rewrite Hcb, IH. simpl.
      by rewrite <- app_assoc.
    + unfold ret. by rewrite IH.
Qed.

(** The streaming call, once the credential is there, for a callback that
    returns normally. *)
Lemma stream_configured (env : Env) (prompt context : jsstring)
    (throws : jsstring -> bool) (l : Log) :
  truthy_opt (API_KEY env) = true ->
  (forall text, throws text = false) ->
  streamWritingAssistance env prompt context throws l =
    (Normal tt,
     {| console := console l ++
          (if stream_fails (backend_stream env prompt context)
           then [(lit "Gemini Stream Error:", Some BackendFailure)] else []);
        dispatched := dispatched l ++
          [(client_of env, stream_request prompt context)];
        delivered := delivered l ++
          text_bearing (received_chunks (backend_stream env prompt context)) ++
          (if stream_fails (backend_stream env prompt context)
           then [stream_error_chunk] else []) |}).
Proof.
  intros Hkey Hcb. unfold streamWritingAssistance, try_catch, bind.
  rewrite (getAI_configured _ _ Hkey).
  unfold call_generateContentStream, bind, record_dispatch, ret.
  rewrite (for_await_chunks_trace _ _ _ Hcb). fold (backend_stream env prompt context).
  destruct (stream_fails (backend_stream env prompt context)); simpl.
  - unfold call_onChunk. rewrite Hcb. simpl. by rewrite <- app_assoc.
  - by rewrite !app_nil_r.
Qed.

(** C1 (as stated) fails: with no credential, neither entry point raises;
    [generate] returns the apology and [generateStream] returns after
    handing the error chunk to the callback. *)
Lemma missing_credential_not_raised :
  truthy_opt (API_KEY Samples.env_no_key) = false /\
  fst (generateWritingAssistance Samples.env_no_key [] (lit "x") Summarize
         no_effects) = Normal apology /\
  fst (streamWritingAssistance Samples.env_no_key (lit "p") (lit "x")
         Samples.never_throws no_effects) = Normal tt /\
  delivered (snd (streamWritingAssistance Samples.env_no_key (lit "p") (lit "x")
                    Samples.never_throws no_effects)) = [stream_error_chunk].
Proof. repeat split; reflexivity. Qed.

(** C1 (amended): while no credential is configured, [getAI] raises the
    missing-credential error and no request reaches the backend, but each
    entry point catches the error at its own boundary: [generate] returns
    the apology string, and [generateStream] invokes [onChunk] exactly once,
    with the error chunk, and completes as that call does. *)
Theorem missing_credential_is_caught (env : Env) (prompt context : jsstring)
    (mode : Mode) (throws : jsstring -> bool) (l : Log) :
  truthy_opt (API_KEY env) = false ->
  fst (getAI env l) = Throw ApiKeyNotFound /\
  (let r := generateWritingAssistance env prompt context mode l in
   fst r = Normal apology /\ dispatched (snd r) = dispatched l /\
   delivered (snd r) = delivered l) /\
  (let r := streamWritingAssistance env prompt context throws l in
   fst r = (if throws stream_error_chunk
            then Throw CallbackFailure else Normal tt) /\
   dispatched (snd r) = dispatched l /\
   delivered (snd r) = delivered l ++ [stream_error_chunk]).
Proof.
  intros H. split; [by rewrite (getAI_missing _ _ H)|]. split.
  - by rewrite (generate_missing _ _ _ _ _ H).
  - unfold streamWritingAssistance, try_catch, bind.
    rewrite (getAI_missing _ _ H). simpl. done.
Qed.

Lemma missing_credential_is_caught_witness :
  fst (generateWritingAssistance Samples.env_no_key [] (lit "x") Summarize
         no_effects) = Normal apology /\
  delivered (snd (streamWritingAssistance Samples.env_no_key [] (lit "x")
                    Samples.never_throws no_effects)) = [stream_error_chunk].
Proof.
  pose proof (missing_credential_is_caught Samples.env_no_key [] (lit "x")
                Summarize Samples.never_throws no_effects eq_refl)
    as (_ & (Hg & _) & (_ & _ & Hs)).
  split; [exact Hg | exact Hs].
Defined.

(** C4 (as stated) fails: given an empty prompt and mode [continue], the
    single-shot entry point builds the request and sends it. *)
Lemma generate_empty_continue_dispatches :
  dispatched (snd (generateWritingAssistance Samples.env_ok [] (lit "x")
                     Continue no_effects))
  = [(client_of Samples.env_ok, generate_request [] (lit "x") Continue)].
Proof. reflexivity. Qed.

(** C5 (as stated) fails: a stream of two chunks, the first with an empty
    text, leads to one invocation of [onChunk]. *)
Lemma stream_skips_empty_chunk :
  received_chunks (backend_stream Samples.env_silent (lit "p") (lit "x"))
    = [Some []; Some (lit "a")] /\
  delivered (snd (streamWritingAssistance Samples.env_silent (lit "p")
                    (lit "x") Samples.never_throws no_effects))
    = [lit "a"].
Proof. split; reflexivity. Qed.

(** C5 (amended): in every streaming run with a callback that returns
    normally, [onChunk] is invoked once per received chunk that carries a
    non-empty text, in arrival order, until the stream ends; when the
    stream fails, [onChunk] is invoked exactly once more, with the error
    chunk, after the real chunks already delivered; nothing follows it and
    the call completes normally. *)
Theorem stream_delivery (env : Env) (prompt context : jsstring)
    (throws : jsstring -> bool) (l : Log) :
  truthy_opt (API_KEY env) = true ->
  (forall text, throws text = false) ->
  let r := streamWritingAssistance env prompt context throws l in
  let s := backend_stream env prompt context in
  fst r = Normal tt /\
  delivered (snd r) =
    delivered l ++ text_bearing (received_chunks s) ++
    (if stream_fails s then [stream_error_chunk] else []).
Proof.
  intros Hkey Hcb. simpl. by rewrite (stream_configured _ _ _ _ _ Hkey Hcb).
Qed.

Lemma stream_delivery_witness :
  delivered (snd (streamWritingAssistance Samples.env_failing (lit "p")
                    (lit "x") Samples.never_throws no_effects))
  = [lit "Draft "; stream_error_chunk].
Proof.
  exact (proj2 (stream_delivery Samples.env_failing (lit "p") (lit "x")
                  Samples.never_throws no_effects eq_refl (fun _ => eq_refl))).
Defined.

(** C6: a single-shot call never completes abruptly; when the backend
    call fails it returns the apology string; and when the backend answers
    with an absent or empty text it returns the empty string. *)
Theorem generate_failure_sentinel (env : Env) (prompt context : jsstring)
    (mode : Mode) (l : Log) :
  let r := fst (generateWritingAssistance env prompt context mode l) in
  (exists text, r = Normal text) /\
  (backend_response env prompt context mode = ResponseError ->
   r = Normal apology) /\
  (truthy_opt (API_KEY env) = true ->
   forall t, backend_response env prompt context mode = ResponseText t ->
             truthy_opt t = false -> r = Normal []).
Proof.
  simpl. split; [apply generate_returns|]. split.
  - intros Hfail. destruct (truthy_opt (API_KEY env)) eqn:H.
    + by rewrite (generate_configured _ _ _ _ _ H), Hfail.
    + by rewrite (generate_missing _ _ _ _ _ H).
  - intros H t Ht Hempty. rewrite (generate_configured _ _ _ _ _ H), Ht.
    simpl. destruct t as [[|c t]|]; done.
Qed.

Lemma generate_failure_sentinel_witness :
  fst (generateWritingAssistance Samples.env_failing (lit "Fix it")
         (lit "x") Fix no_effects) = Normal apology /\
  fst (generateWritingAssistance Samples.env_silent (lit "Fix it")
         (lit "x") Fix no_effects) = Normal [].
Proof.
  split.
  - exact (proj1 (proj2 (generate_failure_sentinel Samples.env_failing
                           (lit "Fix it") (lit "x") Fix no_effects)) eq_refl).
  - exact (proj2 (proj2 (generate_failure_sentinel Samples.env_silent
                           (lit "Fix it") (lit "x") Fix no_effects))
             eq_refl None eq_refl eq_refl).
Defined.

End ClientFacts.

(* ===================================================================== *)
(** * Autosave scheduler: properties *)
(* ===================================================================== *)

Import JS Stats Editor.

(** Unfolds the record updates of a state down to the constructors. *)
Ltac unfold_updates :=
  unfold with_ui, with_page, set_saveTimeoutRef, set_svc, set_title,
    set_lastSaved, set_isSaving, set_showAiModal, set_stats, set_aiPrompt,
    set_aiLoading, set_aiResponse, set_dom, set_timers, set_now, setItem in *;
  simpl in *.

Section SchedulerFacts.

Open Scope Z_scope.

Lemma title_updateStats (s : State) : title (ui (updateStats s)) = title (ui s).
Proof. unfold updateStats. by destruct (editorMounted (page s)). Qed.

Lemma tracked_filter_nil (ts : list Timer) (id : positive) :
  Forall (fun tm => Some id = Some (timer_id tm)) ts ->
  filter (fun tm => timer_id tm <> id) ts = [].
Proof.
  induction 1 as [|tm ts Hid _ IH]; [done|].
  rewrite filter_cons_False; [exact IH|]. intros Hne. congruence.
Qed.

(** [handleInput] leaves exactly one timer pending, the one it has just
    scheduled: the timer it found pending is cancelled first. *)
Lemma handleInput_eq (s : State) :
  pending_is_tracked s ->
  handleInput s =
    {| ui := set_isSaving true (ui (updateStats s));
       saveTimeoutRef := Some (next_timer (page s));
       page := Build_Browser (dom (page s)) (editorMounted (page s))
                 (localStorage (page s)) (writes (page s))
                 [save_timer s] (Pos.succ (next_timer (page s)))
                 (now (page s));
       svc := svc s |}.
Proof.
  unfold pending_is_tracked, handleInput, save_timer, updateStats.
  destruct s as [r ref [d m ls ws ts nt t] l]. simpl.
  intros Htr. destruct m; simpl in *.
  - destruct ref as [id|]; simpl.
    + unfold clearTimeout. simpl. by rewrite (tracked_filter_nil _ _ Htr).
    + destruct ts as [|tm ts]; [done|]. by inversion Htr.
  - destruct ref as [id|]; simpl.
    + unfold clearTimeout. simpl. by rewrite (tracked_filter_nil _ _ Htr).
    + destruct ts as [|tm ts]; [done|]. by inversion Htr.
Qed.

(** Without the invariant, the scheduled timer is still pending after
    [handleInput], and it is the one [saveTimeoutRef] holds. *)
Lemma handleInput_schedules (s : State) :
  save_timer s ∈ timers (page (handleInput s)) /\
  saveTimeoutRef (handleInput s) = Some (next_timer (page s)) /\
  isSaving (ui (handleInput s)) = true /\
  dom (page (handleInput s)) = dom (page s).
Proof.
  unfold handleInput, save_timer, updateStats.
  destruct s as [r ref [d m ls ws ts nt t] l]. simpl.
  destruct m, ref; simpl; repeat split; set_solver.
Qed.

Lemma handleInput_tracked (s : State) :
  pending_is_tracked s -> pending_is_tracked (handleInput s).
Proof.
  intros H. rewrite (handleInput_eq _ H). unfold pending_is_tracked. simpl.
  by repeat constructor.
Qed.

Lemma armed_tracked (s : State) : armed s -> pending_is_tracked s.
Proof.
  intros (id & Href & Hts). unfold pending_is_tracked. rewrite Hts, Href.
  by repeat constructor.
Qed.

(** An edit event arms the scheduler and writes nothing. *)
Lemma user_edit_armed (d : Dom) (s : State) :
  pending_is_tracked s ->
  armed (user_edit d s) /\
  writes (page (user_edit d s)) = writes (page s) /\
  localStorage (page (user_edit d s)) = localStorage (page s) /\
  dom (page (user_edit d s)) = d /\
  title (ui (user_edit d s)) = title (ui s) /\
  editorMounted (page (user_edit d s)) = editorMounted (page s) /\
  now (page (user_edit d s)) = now (page s).
Proof.
  intros Htr. unfold user_edit.
  assert (Htr' : pending_is_tracked (with_page (set_dom d) s)) by exact Htr.
  rewrite (handleInput_eq _ Htr'). unfold armed. simpl.
  rewrite title_updateStats. simpl.
  repeat split. by eexists.
Qed.

(** ** Time passing with one timer pending *)

Lemma advance_to_early (s : State) (tm : Timer) (t : Z) :
  timers (page s) = [tm] -> t < deadline tm ->
  advance_to t s = with_page (fun b => set_now (Z.max (now b) t) b) s.
Proof.
  intros Hts Hlt. unfold advance_to. rewrite Hts.
  assert (Hdue : is_due t tm = false) by (unfold is_due; lia).
  rewrite (filter_cons_True (fun x => is_due t x = false)) by exact Hdue.
  rewrite (filter_cons_False (fun x => is_due t x = true)) by (by rewrite Hdue).
  rewrite !filter_nil.
  simpl. destruct s as [r ref [d m ls ws ts nt n] l]. simpl in *. by subst.
Qed.

Lemma advance_to_due (s : State) (tm : Timer) (t : Z) :
  timers (page s) = [tm] -> deadline tm <= t ->
  advance_to t s =
    with_page (fun b => set_now (Z.max (now b) t) b)
      (run_timer tm (with_page (set_timers []) s)).
Proof.
  intros Hts Hle. unfold advance_to. rewrite Hts.
  assert (Hdue : is_due t tm = true) by (unfold is_due; lia).
  rewrite (filter_cons_False (fun x => is_due t x = false)) by (by rewrite Hdue).
  rewrite (filter_cons_True (fun x => is_due t x = true)) by exact Hdue.
  rewrite !filter_nil. reflexivity.
Qed.

Lemma advance_before_early (s : State) (tm : Timer) (t : Z) :
  timers (page s) = [tm] -> t <= deadline tm ->
  advance_before t s = with_page (fun b => set_now (Z.max (now b) t) b) s.
Proof.
  intros Hts Hle. unfold advance_before. rewrite Hts.
  assert (Hdue : is_overdue t tm = false) by (unfold is_overdue; lia).
  rewrite (filter_cons_True (fun x => is_overdue t x = false)) by exact Hdue.
  rewrite (filter_cons_False (fun x => is_overdue t x = true)) by (by rewrite Hdue).
  rewrite !filter_nil.
  simpl. destruct s as [r ref [d m ls ws ts nt n] l]. simpl in *. by subst.
Qed.


(** The save callback on a mounted surface: both keys are written, first
    the markup read at that moment, then the captured title. *)
Lemma run_timer_mounted (tm : Timer) (s : State) :
  editorMounted (page s) = true ->
  run_timer tm s =
    {| ui := set_isSaving false
               (set_lastSaved (Some (Z.max (now (page s)) (deadline tm))) (ui s));
       saveTimeoutRef := saveTimeoutRef s;
       page := Build_Browser (dom (page s)) true
                 (<[title_key := saved_title tm]>
                    (<[content_key := innerHTML (dom (page s))]>
                       (localStorage (page s))))
                 (writes (page s) ++
                    [(content_key, innerHTML (dom (page s)));
                     (title_key, saved_title tm)])
                 (timers (page s)) (next_timer (page s))
                 (Z.max (now (page s)) (deadline tm));
       svc := svc s |}.
Proof.
  intros Hm. unfold run_timer, save_callback.
  destruct s as [r ref [d m ls ws ts nt n] l]. simpl in *. subst m. simpl.
  unfold_updates. by rewrite <- app_assoc.
Qed.

(** The same callback after the surface is gone does nothing but let the
    clock move. *)
Lemma run_timer_unmounted (tm : Timer) (s : State) :
  editorMounted (page s) = false ->
  writes (page (run_timer tm s)) = writes (page s) /\
  localStorage (page (run_timer tm s)) = localStorage (page s).
Proof.
  intros Hm. unfold run_timer, save_callback.
  destruct s as [r ref [d m ls ws ts nt n] l]. simpl in *. by subst m.
Qed.

Lemma last_cons_default (d d0 : Dom) (l : list Dom) :
  List.last (d :: l) d0 = List.last l d.
Proof.
  revert d d0. induction l as [|e l IH]; intros d d0; [done|].
  change (List.last (d :: e :: l) d0) with (List.last (e :: l) d0).
  by rewrite !IH.
Qed.

(** Further edits, each less than the delay after the previous one, keep
    the scheduler armed and write nothing. *)
Lemma edit_burst_armed (rest : list (Z * Dom)) (s : State) :
  armed s ->
  Forall (fun g => 0 <= g.1 < SAVE_DELAY) rest ->
  armed (edit_burst rest s) /\
  writes (page (edit_burst rest s)) = writes (page s) /\
  localStorage (page (edit_burst rest s)) = localStorage (page s) /\
  dom (page (edit_burst rest s)) = last_dom (dom (page s)) rest /\
  title (ui (edit_burst rest s)) = title (ui s) /\
  editorMounted (page (edit_burst rest s)) = editorMounted (page s).
Proof.
  intros Ha Hgaps. revert s Ha.
  induction Hgaps as [|[gap d] rest Hgap _ IH]; intros s Ha; [done|].
  simpl in Hgap. cbn [edit_burst].
  destruct Ha as (id & Href & Hts).
  rewrite (advance_before_early _ _ _ Hts) by (simpl; lia).
  set (s1 := with_page _ s).
  assert (Htr : pending_is_tracked s1).
  { unfold pending_is_tracked, s1. simpl. rewrite Hts, Href.
    by repeat constructor. }
  destruct (user_edit_armed d s1 Htr) as (Ha' & Hw & Hls & Hd & Ht & Hm & _).
  destruct (IH _ Ha') as (Ha2 & Hw2 & Hls2 & Hd2 & Ht2 & Hm2).
  repeat split; [exact Ha2 | by rewrite Hw2, Hw | by rewrite Hls2, Hls | |
                 by rewrite Ht2, Ht | by rewrite Hm2, Hm].
  rewrite Hd2, Hd. unfold last_dom. simpl map. by rewrite last_cons_default.
Qed.

(** An armed scheduler saves exactly once, when the delay has passed. *)
Lemma armed_fires (s : State) (T : Z) :
  armed s -> editorMounted (page s) = true ->
  now (page s) + SAVE_DELAY <= T ->
  page (advance_to T s) =
    Build_Browser (dom (page s)) true
      (<[title_key := title (ui s)]>
         (<[content_key := innerHTML (dom (page s))]> (localStorage (page s))))
      (writes (page s) ++
         [(content_key, innerHTML (dom (page s))); (title_key, title (ui s))])
      [] (next_timer (page s)) T /\
  isSaving (ui (advance_to T s)) = false /\
  lastSaved (ui (advance_to T s)) = Some (now (page s) + SAVE_DELAY).
Proof.
  intros (id & Href & Hts) Hm HT.
  rewrite (advance_to_due _ _ _ Hts) by (simpl; lia).
  rewrite run_timer_mounted by exact Hm. unfold_updates.
  unfold SAVE_DELAY in *.
  split; [|split]; [f_equal; lia | done | f_equal; lia].
Qed.

Lemma armed_waits (s : State) (t : Z) :
  armed s -> t < now (page s) + SAVE_DELAY ->
  writes (page (advance_to t s)) = writes (page s) /\
  timers (page (advance_to t s)) = timers (page s).
Proof.
  intros (id & Href & Hts) Ht.
  by rewrite (advance_to_early _ _ _ Hts) by (simpl; lia).
Qed.

(** ** The invariant holds along every run *)

Lemma run_timer_frame (tm : Timer) (s : State) :
  timers (page (run_timer tm s)) = timers (page s) /\
  saveTimeoutRef (run_timer tm s) = saveTimeoutRef s.
Proof.
  unfold run_timer, save_callback.
  destruct s as [r ref [d m ls ws ts nt n] l]. by destruct m.
Qed.

Lemma run_timers_frame (due : list Timer) (s : State) :
  timers (page (foldl (fun s tm => run_timer tm s) s due)) = timers (page s) /\
  saveTimeoutRef (foldl (fun s tm => run_timer tm s) s due) = saveTimeoutRef s.
Proof.
  revert s. induction due as [|tm due IH]; intros s; [done|]. simpl.
  destruct (IH (run_timer tm s)) as [-> ->]. apply run_timer_frame.
Qed.

Lemma advance_to_tracked (t : Z) (s : State) :
  pending_is_tracked s -> pending_is_tracked (advance_to t s).
Proof.
  unfold pending_is_tracked, advance_to. intros H.
  set (s1 := with_page _ s).
  destruct (run_timers_frame
              (filter (fun tm => is_due t tm = true) (timers (page s))) s1)
    as [Hts Href].
  simpl. rewrite Hts, Href. unfold s1. simpl.
  apply Forall_forall. intros tm Hin.
  apply list_elem_of_filter in Hin as [_ Hin].
  by apply (proj1 (Forall_forall _ _) H).
Qed.

Lemma changeTitle_tracked (v : jsstring) (s : State) :
  pending_is_tracked s -> pending_is_tracked (changeTitle v s).
Proof. unfold changeTitle. by case_decide. Qed.

Lemma handleAiRequest_frame (env : Gemini.Env) (mode : Gemini.Mode) (s : State) :
  page (handleAiRequest env mode s) = page s /\
  saveTimeoutRef (handleAiRequest env mode s) = saveTimeoutRef s.
Proof.
  unfold handleAiRequest, handleAiRequest_settle.
  destruct (submit_rejected mode s); [done|].
  destruct (Gemini.generateWritingAssistance _ _ _ _ _) as [[result|e] log]; done.
Qed.

Lemma step_tracked (execCommand : jsstring -> option jsstring -> Dom -> Dom)
    (env : Gemini.Env) (e : Event) (s : State) :
  pending_is_tracked s -> pending_is_tracked (step execCommand env e s).
Proof.
  intros H. destruct e; simpl; try exact H.
  - by apply handleInput_tracked.
  - by apply changeTitle_tracked.
  - by apply handleInput_tracked.
  - unfold pending_is_tracked.
    by destruct (handleAiRequest_frame env mode s) as [-> ->].
  - unfold insertAiContent. destruct (aiResponse (ui s)) as [held|]; [|exact H].
    destruct (truthy held); [|exact H]. by apply handleInput_tracked.
  - by apply advance_to_tracked.
Qed.

(** Every state the component reaches from a state without untracked
    timers has none either. *)
Lemma run_tracked (execCommand : jsstring -> option jsstring -> Dom -> Dom)
    (env : Gemini.Env) (es : list Event) (s : State) :
  pending_is_tracked s -> pending_is_tracked (run execCommand env es s).
Proof.
  revert s. induction es as [|e es IH]; intros s H; [exact H|].
  apply IH. by apply step_tracked.
Qed.

Lemma fresh_tracked : pending_is_tracked Samples.fresh.
Proof. constructor. Qed.

(** ** The claims on the scheduler *)

(** C2: a burst of edit events, each less than the delay after the
    previous one, causes exactly one content write, of the markup as of the
    last event, once the delay has passed after that event and not before;
    each edit leaves one timer pending, its own. *)
Theorem debounce_single_write (s : State) (d0 : Dom) (rest : list (Z * Dom)) :
  pending_is_tracked s ->
  editorMounted (page s) = true ->
  Forall (fun g => 0 <= g.1 < SAVE_DELAY) rest ->
  let burst_end := edit_burst rest (user_edit d0 s) in
  armed burst_end /\
  (forall t, t < now (page burst_end) + SAVE_DELAY ->
             writes (page (advance_to t burst_end)) = writes (page s)) /\
  (forall T, now (page burst_end) + SAVE_DELAY <= T ->
             writes (page (advance_to T burst_end)) =
               writes (page s) ++
               [(content_key, innerHTML (last_dom d0 rest));
                (title_key, title (ui s))] /\
             timers (page (advance_to T burst_end)) = []).
Proof.
  intros Htr Hm Hgaps. cbv zeta.
  destruct (user_edit_armed d0 s Htr) as (Ha & Hw & _ & Hd & Ht & Hm1 & _).
  destruct (edit_burst_armed rest _ Ha Hgaps) as (Ha2 & Hw2 & _ & Hd2 & Ht2 & Hm2).
  split; [exact Ha2|]. split.
  - intros t Hlt. destruct (armed_waits _ t Ha2 Hlt) as [-> _].
    by rewrite Hw2, Hw.
  - intros T HT.
    assert (Hm3 : editorMounted (page (edit_burst rest (user_edit d0 s))) = true)
      by (by rewrite Hm2, Hm1).
    destruct (armed_fires _ T Ha2 Hm3 HT) as (-> & _ & _). simpl.
    by rewrite Hw2, Hw, Hd2, Hd, Ht2, Ht.
Qed.

Lemma debounce_single_write_witness :
  writes (page (advance_to 2000
                  (edit_burst [(200, Samples.dom_of (lit "He"));
                               (300, Samples.dom_of (lit "Hel"))]
                     (user_edit (Samples.dom_of (lit "H")) Samples.fresh))))
  = [(content_key, lit "<p>Hel</p>"); (title_key, lit "Untitled document")].
Proof.
  refine (proj1 (proj2 (proj2 (debounce_single_write Samples.fresh
            (Samples.dom_of (lit "H"))
            [(200, Samples.dom_of (lit "He")); (300, Samples.dom_of (lit "Hel"))]
            fresh_tracked eq_refl _)) 2000 _)).
  - repeat constructor; simpl; unfold SAVE_DELAY; lia.
  - vm_compute. discriminate.
Defined.

(** C9: a title change is written to the store at once, whatever the
    state of content saves, and leaves the pending timer, its handle, the
    saving flag and the stored content as they were. *)
Theorem title_write_through (s : State) (v : jsstring) :
  v <> title (ui s) ->
  let s' := changeTitle v s in
  title (ui s') = v /\
  localStorage (page s') !! title_key = Some v /\
  writes (page s') = writes (page s) ++ [(title_key, v)] /\
  localStorage (page s') !! content_key = localStorage (page s) !! content_key /\
  timers (page s') = timers (page s) /\
  saveTimeoutRef s' = saveTimeoutRef s /\
  isSaving (ui s') = isSaving (ui s) /\
  now (page s') = now (page s).
Proof.
  intros Hne. unfold changeTitle. case_decide; [done|]. unfold_updates.
  repeat split.
  - apply lookup_insert_eq.
  - by apply lookup_insert_ne.
Qed.

Lemma title_write_through_witness :
  isSaving (ui Samples.typing) = true /\
  localStorage (page (changeTitle (lit "Notes") Samples.typing)) !! title_key
    = Some (lit "Notes") /\
  timers (page (changeTitle (lit "Notes") Samples.typing))
    = timers (page Samples.typing).
Proof.
  assert (Hne : lit "Notes" <> title (ui Samples.typing)) by discriminate.
  pose proof (title_write_through Samples.typing (lit "Notes") Hne)
    as (_ & Hs & _ & _ & Ht & _).
  split; [reflexivity|]. split; [exact Hs | exact Ht].
Defined.

(** C10: when the timer scheduled by an edit fires, the save writes both
    keys: [docylit-content] with the surface's markup, and [docylit-title]
    with the title of the render that scheduled the timer, also when the
    title has been changed since. *)
Theorem save_writes_captured_title (s : State) (v : jsstring) (T : Z) :
  pending_is_tracked s ->
  editorMounted (page s) = true ->
  now (page s) + SAVE_DELAY <= T ->
  let renamed := changeTitle v (handleInput s) in
  let saved := advance_to T renamed in
  title (ui saved) = v /\
  writes (page saved) =
    writes (page renamed) ++
    [(content_key, innerHTML (dom (page s))); (title_key, title (ui s))] /\
  localStorage (page saved) !! content_key = Some (innerHTML (dom (page s))) /\
  localStorage (page saved) !! title_key = Some (title (ui s)).
Proof.
  intros Htr Hm HT. cbv zeta.
  set (renamed := changeTitle v (handleInput s)).
  assert (Hr : timers (page renamed) = [save_timer s] /\
               editorMounted (page renamed) = true /\
               dom (page renamed) = dom (page s) /\
               title (ui renamed) = v).
  { unfold renamed, changeTitle. rewrite (handleInput_eq _ Htr).
    case_decide as E; unfold_updates; rewrite ?title_updateStats in *; done. }
  destruct Hr as (Hts & Hm' & Hd & Ht).
  rewrite (advance_to_due _ _ _ Hts) by (simpl; lia).
  assert (Hm2 : editorMounted (page (with_page (set_timers []) renamed)) = true)
    by exact Hm'.
  rewrite (run_timer_mounted _ _ Hm2). unfold_updates. rewrite Hd.
  repeat split.
  - exact Ht.
  - by rewrite lookup_insert_ne, lookup_insert_eq.
  - apply lookup_insert_eq.
Qed.

Lemma save_writes_captured_title_witness :
  let saved := advance_to 1000 (changeTitle (lit "Notes")
                 (handleInput Samples.fresh)) in
  title (ui saved) = lit "Notes" /\
  localStorage (page saved) !! title_key = Some (lit "Untitled document").
Proof.
  pose proof (save_writes_captured_title Samples.fresh (lit "Notes") 1000
                fresh_tracked eq_refl) as H.
  simpl in H. destruct H as (Ht & _ & _ & Hs); [vm_compute; discriminate|].
  split; [exact Ht | exact Hs].
Defined.

End SchedulerFacts.

(* ===================================================================== *)
(** * Assistance session: properties *)
(* ===================================================================== *)

Section SessionFacts.
Import Gemini.

(** A submit that passes the guard, with a credential configured, sends
    one request, built from the prompt derived and the context captured in
    the state of the submit. *)
Lemma handleAiRequest_dispatch (env : Env) (mode : Mode) (s : State) :
  submit_rejected mode s = false ->
  truthy_opt (API_KEY env) = true ->
  dispatched (svc (handleAiRequest env mode s)) =
    dispatched (svc s) ++
    [(client_of env,
      generate_request (promptToSend mode s) (capture_context s) mode)].
Proof.
  intros Hg Hkey. unfold handleAiRequest, handleAiRequest_settle. rewrite Hg.
  change (capture_context (handleAiRequest_loading s)) with (capture_context s).
  rewrite (generate_configured _ _ _ _ _ Hkey).
  by destruct (backend_response env _ _ mode).
Qed.

(** What the session holds once the request has settled: the text
    returned by the client, which is the apology when the backend call
    failed. *)
Lemma handleAiRequest_holds (env : Env) (mode : Mode) (s : State) :
  submit_rejected mode s = false ->
  truthy_opt (API_KEY env) = true ->
  let s' := handleAiRequest env mode s in
  aiLoading (ui s') = false /\
  aiResponse (ui s') =
    Some (match backend_response env (promptToSend mode s)
                  (capture_context s) mode with
          | ResponseText t => or_else t []
          | ResponseError => apology
          end).
Proof.
  intros Hg Hkey. unfold handleAiRequest, handleAiRequest_settle. rewrite Hg.
  change (capture_context (handleAiRequest_loading s)) with (capture_context s).
  rewrite (generate_configured _ _ _ _ _ Hkey).
  by destruct (backend_response env _ _ mode).
Qed.

(** C4 (amended): a submit with an empty prompt and mode [continue] is
    stopped by the controller, which returns before any state change and
    before the client is called; the single-shot entry point has no such
    guard and, with a credential configured, sends the request it is
    given. *)
Theorem empty_continue_stopped_by_controller (env : Env) (s : State) :
  truthy (aiPrompt (ui s)) = false ->
  handleAiRequest env Continue s = s /\
  (truthy_opt (API_KEY env) = true ->
   forall context l,
     dispatched (snd (generateWritingAssistance env [] context Continue l)) =
       dispatched l ++
       [(client_of env, generate_request [] context Continue)]).
Proof.
  intros Hp. split.
  - unfold handleAiRequest, submit_rejected. by rewrite Hp.
  - intros Hkey context l. rewrite (generate_configured _ _ _ _ _ Hkey).
    by destruct (backend_response env [] context Continue).
Qed.

Lemma empty_continue_stopped_by_controller_witness :
  handleAiRequest Samples.env_ok Continue Samples.fresh = Samples.fresh.
Proof.
  exact (proj1 (empty_continue_stopped_by_controller Samples.env_ok
                  Samples.fresh eq_refl)).
Defined.

(** C8 (as stated) fails: with no credential configured, a submit with an
    empty prompt and mode [summarize] passes the guard and derives the
    canned instruction, but nothing reaches the backend. *)
Lemma empty_prompt_without_credential_not_sent :
  truthy (aiPrompt (ui Samples.fresh)) = false /\
  submit_rejected Summarize Samples.fresh = false /\
  promptToSend Summarize Samples.fresh = lit "Summarize this text concisely." /\
  dispatched (svc (handleAiRequest Samples.env_no_key Summarize Samples.fresh))
    = [] /\
  aiResponse (ui (handleAiRequest Samples.env_no_key Summarize Samples.fresh))
    = Some apology.
Proof. repeat split; reflexivity. Qed.

(** C8 (amended): a submit with an empty prompt and a mode other than
    [continue] passes the guard, derives a non-empty canned instruction
    from the mode (for [summarize], the canned summarize instruction) and
    hands it to the client.  When a credential is configured, the backend
    is invoked with a request whose task is that instruction; when none
    is configured, no request reaches the backend. *)
Theorem empty_prompt_sends_canned (env : Env) (mode : Mode) (s : State) :
  truthy (aiPrompt (ui s)) = false ->
  mode <> Continue ->
  submit_rejected mode s = false /\
  promptToSend mode s = canned_prompt mode /\
  truthy (canned_prompt mode) = true /\
  canned_prompt Summarize = lit "Summarize this text concisely." /\
  (truthy_opt (API_KEY env) = true ->
   dispatched (svc (handleAiRequest env mode s)) =
     dispatched (svc s) ++
     [(client_of env,
       generate_request (canned_prompt mode) (capture_context s) mode)] /\
   contents (generate_request (canned_prompt mode) (capture_context s) mode) =
     lit "Context/Current Text: " ++ dquote ++ capture_context s ++ dquote
     ++ newline ++ newline ++ lit "Task: " ++ canned_prompt mode) /\
  (truthy_opt (API_KEY env) = false ->
   dispatched (svc (handleAiRequest env mode s)) = dispatched (svc s)).
Proof.
  intros Hp Hmode.
  assert (Hg : submit_rejected mode s = false).
  { unfold submit_rejected. rewrite Hp. simpl. by apply bool_decide_eq_false_2. }
  assert (Hsend : promptToSend mode s = canned_prompt mode).
  { unfold promptToSend. by rewrite Hp. }
  split; [exact Hg|]. split; [exact Hsend|]. split; [by destruct mode|].
  split; [done|]. split.
  - intros Hkey. split; [|done].
    by rewrite (handleAiRequest_dispatch _ _ _ Hg Hkey), Hsend.
  - intros Hkey. unfold handleAiRequest, handleAiRequest_settle. rewrite Hg.
    change (svc (handleAiRequest_loading s)) with (svc s).
    by rewrite (generate_missing _ _ _ _ _ Hkey).
Qed.

Lemma empty_prompt_sends_canned_witness :
  dispatched (svc (handleAiRequest Samples.env_ok Summarize Samples.fresh)) =
    [(client_of Samples.env_ok,
      generate_request (lit "Summarize this text concisely.") [] Summarize)].
Proof.
  assert (Hmode : Summarize <> Continue) by discriminate.
  pose proof (empty_prompt_sends_canned Samples.env_ok Summarize
                Samples.fresh eq_refl Hmode) as (_ & _ & _ & _ & Hd & _).
  exact (proj1 (Hd eq_refl)).
Defined.

(** C7 (as stated) fails: in the state that a failed request leaves, the
    session holds the apology, and insert puts it into the document and
    clears the session. *)
Lemma insert_from_errored_inserts :
  aiResponse (ui Samples.errored) = Some apology /\
  innerText (dom (page Samples.errored)) = [] /\
  innerText (dom (page (insertAiContent Samples.append_surface Samples.errored)))
    = apology /\
  aiResponse (ui (insertAiContent Samples.append_surface Samples.errored)) = None /\
  isSaving (ui (insertAiContent Samples.append_surface Samples.errored)) = true.
Proof. repeat split; reflexivity. Qed.

(** C7 (amended): insert acts exactly when the session holds a non-empty
    text, whether a request succeeded or failed to produce it: it inserts
    the held text through the editing surface, clears the held text and
    the prompt field, closes the assistant and triggers the scheduler's
    edit event; when nothing is held (idle, loading) or the held text is
    empty, insert changes nothing. *)
Theorem insert_acts_on_held_text
    (execCommand : jsstring -> option jsstring -> Dom -> Dom) (s : State) :
  (truthy_opt (aiResponse (ui s)) = false -> insertAiContent execCommand s = s) /\
  (forall held,
     aiResponse (ui s) = Some held -> truthy held = true ->
     let s' := insertAiContent execCommand s in
     dom (page s') = execCommand (lit "insertText") (Some held) (dom (page s)) /\
     aiResponse (ui s') = None /\
     aiPrompt (ui s') = [] /\
     showAiModal (ui s') = false /\
     aiLoading (ui s') = aiLoading (ui s) /\
     isSaving (ui s') = true /\
     saveTimeoutRef s' = Some (next_timer (page s)) /\
     save_timer s ∈ timers (page s')).
Proof.
  unfold insertAiContent. split.
  - destruct (aiResponse (ui s)) as [held|]; [|done]. simpl. by intros ->.
  - intros held -> ->. cbv zeta.
    set (s1 := with_ui (set_showAiModal false) _).
    destruct (handleInput_schedules s1) as (Hin & Href & Hsav & Hd).
    rewrite Hd, Href. repeat split; try done.
    all: unfold handleInput, updateStats, s1;
      destruct s as [r ref [d m ls ws ts nt n] l]; destruct m, ref; done.
Qed.

Lemma insert_acts_on_held_text_witness :
  insertAiContent Samples.append_surface Samples.fresh = Samples.fresh /\
  innerText (dom (page (insertAiContent Samples.append_surface Samples.responded)))
    = lit "Draft text.".
Proof.
  split.
  - exact (proj1 (insert_acts_on_held_text Samples.append_surface Samples.fresh)
             eq_refl).
  - pose proof (proj2 (insert_acts_on_held_text Samples.append_surface
                         Samples.responded) (lit "Draft text.") eq_refl eq_refl)
      as (Hd & _).
    cbv zeta in Hd. by rewrite Hd.
Defined.

End SessionFacts.

(* ===================================================================== *)
(** * Stats Engine: further properties *)
(* ===================================================================== *)

Section StatsMore.
Import JS Stats.

Lemma word_runs_bound (b : bool) (s : jsstring) :
  2 * word_runs b s <= length s + (if b then 1 else 0).
Proof.
  revert b. induction s as [|c s IH]; intros b; simpl; [destruct b; lia|].
  destruct (is_white_space c).
  - specialize (IH true). simpl in IH. destruct b; lia.
  - specialize (IH false). simpl in IH. destruct b; lia.
Qed.

(** X1: a text of n code units has at most (n + 1) / 2 words. *)
Theorem words_bound (text : jsstring) :
  2 * words (computeStats text) <= chars (computeStats text) + 1.
Proof.
  rewrite computeStats_words_runs. simpl.
  apply (word_runs_bound true text).
Qed.

Lemma word_runs_app_white_cons (p : bool) (a : jsstring) (c : N)
    (rest : jsstring) :
  is_white_space c = true ->
  word_runs p (a ++ c :: rest) = word_runs p a + word_runs true rest.
Proof.
  intros Hc. revert p. induction a as [|x a IH]; intros p; simpl.
  - by rewrite Hc.
  - destruct (is_white_space x); rewrite IH; lia.
Qed.

(** X2: joining two texts with white space adds their word counts. *)
Theorem words_join (a w b : jsstring) :
  w <> [] -> forallb is_white_space w = true ->
  words (computeStats (a ++ w ++ b)) =
    words (computeStats a) + words (computeStats b).
Proof.
  intros Hne Hw. rewrite !computeStats_words_runs.
  destruct w as [|c w]; [done|]. simpl in Hw.
  apply andb_true_iff in Hw as [Hc Hw].
  change (a ++ (c :: w) ++ b) with (a ++ c :: (w ++ b)).
  rewrite (word_runs_app_white_cons _ _ _ _ Hc).
  by rewrite (word_runs_white_app _ _ Hw).
Qed.

Lemma words_join_witness :
  words (computeStats (lit "Hello big" ++ [32; 10]%N ++ lit "wide world")) = 4.
Proof.
  assert (Hne : [32; 10]%N <> []) by discriminate.
  exact (words_join (lit "Hello big") [32; 10]%N (lit "wide world")
           Hne eq_refl).
Defined.

Lemma split_go_concat (b : bool) (cur s : jsstring) :
  (b = true -> cur = []) ->
  concat (split_go b cur s) = rev cur ++ List.filter not_white s.
Proof.
  revert b cur. induction s as [|c s IH]; intros b cur Hb; simpl.
  - by rewrite !app_nil_r.
  - unfold not_white at 1. destruct (is_white_space c); simpl.
    + destruct b.
      * rewrite (Hb eq_refl). by apply IH.
      * simpl. by rewrite IH.
    + rewrite IH by done. simpl. by rewrite <- app_assoc.
Qed.

Lemma filter_white_nil (w : jsstring) :
  forallb is_white_space w = true -> List.filter not_white w = [].
Proof.
  induction w as [|c w IH]; [done|]. simpl. unfold not_white at 1.
  destruct (is_white_space c); simpl; [exact IH | done].
Qed.

Lemma filter_trim (text : jsstring) :
  List.filter not_white (trim text) = List.filter not_white text.
Proof.
  unfold trim, trimEnd.
  destruct (trimStart_split text) as [w [Hs Hw]].
  destruct (trimStart_split (rev (trimStart text))) as [w' [Hs' Hw']].
  rewrite Hs at 2. rewrite List.filter_app, (filter_white_nil _ Hw). simpl.
  apply (f_equal (@rev N)) in Hs'. rewrite rev_involutive, rev_app_distr in Hs'.
  rewrite Hs' at 2. rewrite List.filter_app.
  rewrite (filter_white_nil (rev w')) by (by rewrite forallb_white_rev).
  by rewrite app_nil_r.
Qed.

Lemma split_go_white_free (b : bool) (cur s : jsstring) :
  forallb not_white cur = true ->
  Forall (fun seg => forallb not_white seg = true) (split_go b cur s).
Proof.
  revert b cur. induction s as [|c s IH]; intros b cur Hcur; simpl.
  - constructor; [|constructor]. rewrite forallb_forall in *.
    intros x Hx. apply Hcur. by apply in_rev.
  - destruct (is_white_space c) eqn:Hc.
    + destruct b; [by apply IH|]. constructor; [|by apply IH].
      rewrite forallb_forall in *. intros x Hx. apply Hcur. by apply in_rev.
    + apply IH. simpl. unfold not_white at 1. by rewrite Hc.
Qed.

Lemma split_go_segments_nonempty (s : jsstring) :
  ends_word s = true ->
  forall b cur,
    (b = false -> cur <> [] \/ exists c s', s = c :: s' /\ is_white_space c = false) ->
    (b = true -> s <> []) ->
    Forall (fun seg => truthy seg = true) (split_go b cur s).
Proof.
  induction s as [|c s IH]; intros He b cur Hf Ht.
  - destruct b; [by destruct (Ht eq_refl)|].
    destruct (Hf eq_refl) as [Hcur | (c & s' & E & _)]; [|done].
    simpl. constructor; [|constructor].
    destruct cur as [|x cur]; [done|]. simpl. by destruct (rev cur).
  - assert (He' : ends_word s = true).
    { destruct s; [done | exact He]. }
    simpl. destruct (is_white_space c) eqn:Hc.
    + assert (Hs : s <> []).
      { intros ->. simpl in He. by rewrite Hc in He. }
      destruct b.
      * apply (IH He'); [done | by intros _].
      * constructor; [|apply (IH He'); [done | by intros _]].
        destruct (Hf eq_refl) as [Hcur | (c0 & s' & E & Hc0)].
        -- destruct cur as [|x cur]; [done|]. simpl. by destruct (rev cur).
        -- injection E as -> _. congruence.
    + apply (IH He'); [|done]. intros _. by left.
Qed.

(** X3: the word count is the number of maximal runs of code units that
    are not white space; the segments counted are words (not empty, free
    of white space), and put end to end they are the text with its white
    space removed. *)
Theorem counted_segments_are_words (text : jsstring) :
  words (computeStats text) = word_runs true text /\
  (trim text <> [] ->
   Forall (fun seg => is_word seg = true) (split_ws (trim text)) /\
   concat (split_ws (trim text)) = List.filter not_white text).
Proof.
  split; [apply computeStats_words_runs|]. intros Hne. split.
  - destruct (trim_shape text) as [E | (c & m & d & Hc & Hd & E)]; [done|].
    assert (Hend : ends_word (trim text) = true).
    { destruct E as [-> | [-> ->]].
      - change (c :: m ++ [d]) with ((c :: m) ++ [d]). by apply ends_word_last.
      - simpl. by rewrite Hd. }
    assert (Hhead : exists c0 s', trim text = c0 :: s' /\ is_white_space c0 = false).
    { destruct E as [-> | [-> ->]]; by eauto. }
    pose proof (split_go_segments_nonempty _ Hend false [] (fun _ => or_intror Hhead)
                  (fun H => ltac:(discriminate))) as Hn.
    pose proof (split_go_white_free false [] (trim text) eq_refl) as Hw.
    unfold split_ws. rewrite Forall_forall in *. intros seg Hin.
    unfold is_word. rewrite (Hn _ Hin). exact (Hw _ Hin).
  - unfold split_ws. rewrite split_go_concat by done. simpl. apply filter_trim.
Qed.

Lemma counted_segments_are_words_witness :
  concat (split_ws (trim (lit "  Hello   world "))) = lit "Helloworld".
Proof.
  assert (Hne : trim (lit "  Hello   world ") <> []) by discriminate.
  exact (proj2 (proj2 (counted_segments_are_words (lit "  Hello   world ")) Hne)).
Defined.

End StatsMore.

(* ===================================================================== *)
(** * AI Assistance Client: further properties *)
(* ===================================================================== *)

Section ClientMore.
Import JS Gemini.

(** The loop over a stream, whatever the callback does. *)
Lemma for_await_chunks_any (throws : jsstring -> bool) (s : Stream) (l : Log) :
  for_await_chunks throws s l =
    (if existsb throws (text_bearing (received_chunks s))
     then Throw CallbackFailure
     else if stream_fails s then Throw BackendFailure else Normal tt,
     {| console := console l;
        dispatched := dispatched l;
        delivered := delivered l ++
          handed_over throws (text_bearing (received_chunks s)) |}).
Proof.
  revert l. induction s as [| |text rest IH]; intros l; simpl.
  - unfold ret. rewrite app_nil_r. by destruct l.
  - unfold throw. rewrite app_nil_r. by destruct l.
  - unfold bind. destruct (truthy_opt text); simpl.
    + unfold call_onChunk. destruct (throws (default [] text)); [done|].
      rewrite IH. simpl. by rewrite <- app_assoc.
    + unfold ret. by rewrite IH.
Qed.

Lemma stream_any (env : Env) (prompt context : jsstring)
    (throws : jsstring -> bool) (l : Log) :
  truthy_opt (API_KEY env) = true ->
  let texts := text_bearing (received_chunks (backend_stream env prompt context)) in
  let failed := existsb throws texts
                || stream_fails (backend_stream env prompt context) in
  let r := streamWritingAssistance env prompt context throws l in
  fst r = (if failed && throws stream_error_chunk
           then Throw CallbackFailure else Normal tt) /\
  dispatched (snd r) =
    dispatched l ++ [(client_of env, stream_request prompt context)] /\
  delivered (snd r) =
    delivered l ++ handed_over throws texts ++
    (if failed then [stream_error_chunk] else []).
Proof.
  intros Hkey. cbv zeta. unfold streamWritingAssistance, try_catch, bind.
  rewrite (getAI_configured _ _ Hkey).
  unfold call_generateContentStream, bind, record_dispatch, ret.
  rewrite for_await_chunks_any. fold (backend_stream env prompt context).
  destruct (existsb throws _); simpl.
  - unfold call_onChunk. simpl. by rewrite <- app_assoc.
  - destruct (stream_fails _); simpl.
    + unfold call_onChunk. simpl. by rewrite <- app_assoc.
    + by rewrite !app_nil_r.
Qed.

(** X4: when the caller's callback throws on a chunk, the streaming call
    hands over no later chunk, invokes the callback once more with the
    error chunk, as after a backend failure, and completes normally unless
    that last invocation throws as well. *)
Theorem stream_callback_failure (env : Env) (prompt context : jsstring)
    (throws : jsstring -> bool) (l : Log) :
  truthy_opt (API_KEY env) = true ->
  let texts := text_bearing (received_chunks (backend_stream env prompt context)) in
  let failed := existsb throws texts
                || stream_fails (backend_stream env prompt context) in
  let r := streamWritingAssistance env prompt context throws l in
  delivered (snd r) =
    delivered l ++ handed_over throws texts ++
    (if failed then [stream_error_chunk] else []) /\
  fst r = (if failed && throws stream_error_chunk
           then Throw CallbackFailure else Normal tt).
Proof.
  intros Hkey. cbv zeta.
  destruct (stream_any env prompt context throws l Hkey) as (Hr & _ & Hd).
  split; [exact Hd | exact Hr].
Qed.

Lemma stream_callback_failure_witness :
  let r := streamWritingAssistance Samples.env_three_chunks (lit "p") (lit "x")
             (Samples.throws_on (lit "b")) no_effects in
  delivered (snd r) = [lit "a"; lit "b"; stream_error_chunk] /\
  fst r = Normal tt.
Proof.
  exact (stream_callback_failure Samples.env_three_chunks (lit "p") (lit "x")
           (Samples.throws_on (lit "b")) no_effects eq_refl).
Defined.

(** X5: with a credential configured, a call of either entry point sends
    the backend exactly one request, whatever the backend answers and
    whatever the callback does: a failed call is not retried.  The
    single-shot call never invokes a callback. *)
Theorem one_request_per_call (env : Env) (prompt context : jsstring)
    (mode : Mode) (throws : jsstring -> bool) (l : Log) :
  truthy_opt (API_KEY env) = true ->
  dispatched (snd (generateWritingAssistance env prompt context mode l)) =
    dispatched l ++ [(client_of env, generate_request prompt context mode)] /\
  delivered (snd (generateWritingAssistance env prompt context mode l)) =
    delivered l /\
  dispatched (snd (streamWritingAssistance env prompt context throws l)) =
    dispatched l ++ [(client_of env, stream_request prompt context)].
Proof.
  intros Hkey. rewrite (generate_configured _ _ _ _ _ Hkey).
  split; [|split].
  - by destruct (backend_response env prompt context mode).
  - by destruct (backend_response env prompt context mode).
  - exact (proj1 (proj2 (stream_any env prompt context throws l Hkey))).
Qed.

Lemma one_request_per_call_witness :
  length (dispatched (snd (generateWritingAssistance Samples.env_failing
                             (lit "Fix it") (lit "x") Fix no_effects))) = 1.
Proof.
  pose proof (one_request_per_call Samples.env_failing (lit "Fix it") (lit "x")
                Fix Samples.never_throws no_effects eq_refl) as (Hd & _).
  by rewrite Hd.
Defined.

(** X6: the request text does not delimit the context.  A context that
    holds the separator of the template reads as a shorter context
    followed by a longer prompt: both give the same request text, in the
    single-shot template and in the streaming one. *)
Theorem context_not_delimited (a b c : jsstring) :
  generate_contents c (a ++ task_separator ++ b) =
    generate_contents (b ++ task_separator ++ c) a /\
  stream_contents c (a ++ instruction_separator ++ b) =
    stream_contents (b ++ instruction_separator ++ c) a.
Proof.
  unfold generate_contents, stream_contents, task_separator,
    instruction_separator.
  split; by rewrite <- !app_assoc.
Qed.

End ClientMore.

(* ===================================================================== *)
(** * Assistance session: further properties *)
(* ===================================================================== *)

Section SessionMore.
Import Gemini.

(** The session after a submit that passes the guard: it holds what the
    client returned, and nothing but the session and the log changed. *)
Lemma handleAiRequest_settled (env : Env) (mode : Mode) (s : State) :
  submit_rejected mode s = false ->
  exists text log,
    generateWritingAssistance env (promptToSend mode s) (capture_context s)
      mode (svc s) = (Normal text, log) /\
    handleAiRequest env mode s =
      {| ui := set_aiLoading false
                 (set_aiResponse (Some text)
                    (set_aiResponse None (set_aiLoading true (ui s))));
         saveTimeoutRef := saveTimeoutRef s;
         page := page s;
         svc := log |}.
Proof.
  intros Hg. unfold handleAiRequest, handleAiRequest_settle. rewrite Hg.
  change (capture_context (handleAiRequest_loading s)) with (capture_context s).
  change (svc (handleAiRequest_loading s)) with (svc s).
  destruct (generate_returns env (promptToSend mode s) (capture_context s)
              mode (svc s)) as [text Ht].
  destruct (generateWritingAssistance _ _ _ _ _) as [outcome log].
  simpl in Ht. subst outcome. by exists text, log.
Qed.

(** X7: the controller's own error message is never shown: after every
    submit that passes the guard the session holds the text the client
    returned, and it is no longer loading. *)
Theorem session_holds_client_text (env : Env) (mode : Mode) (s : State) :
  submit_rejected mode s = false ->
  aiLoading (ui (handleAiRequest env mode s)) = false /\
  exists text,
    fst (generateWritingAssistance env (promptToSend mode s)
           (capture_context s) mode (svc s)) = Normal text /\
    aiResponse (ui (handleAiRequest env mode s)) = Some text.
Proof.
  intros Hg. destruct (handleAiRequest_settled env mode s Hg)
    as (text & log & Hcall & ->).
  split; [done|]. exists text. by rewrite Hcall.
Qed.

Lemma session_holds_client_text_witness :
  aiResponse (ui (handleAiRequest Samples.env_no_key Fix Samples.fresh))
    = Some apology.
Proof.
  destruct (session_holds_client_text Samples.env_no_key Fix Samples.fresh
              eq_refl) as (_ & text & Hcall & Hheld).
  rewrite Hheld. simpl in Hcall. by injection Hcall as ->.
Defined.

(** X8: a request changes the session and the log only: the page (the
    document, the store and its write trace, the timers, the clock), the
    timer handle, the title, the prompt field, the modal, the saving flag
    and the stats are as before, so an answer is never inserted or saved
    by the request itself. *)
Theorem request_leaves_document (env : Env) (mode : Mode) (s : State) :
  let s' := handleAiRequest env mode s in
  page s' = page s /\
  saveTimeoutRef s' = saveTimeoutRef s /\
  title (ui s') = title (ui s) /\
  aiPrompt (ui s') = aiPrompt (ui s) /\
  showAiModal (ui s') = showAiModal (ui s) /\
  isSaving (ui s') = isSaving (ui s) /\
  lastSaved (ui s') = lastSaved (ui s) /\
  stats (ui s') = stats (ui s).
Proof.
  cbv zeta. destruct (submit_rejected mode s) eqn:Hg.
  - unfold handleAiRequest. by rewrite Hg.
  - by destruct (handleAiRequest_settled env mode s Hg) as (text & log & _ & ->).
Qed.

(** X9: the prompt that reaches the client is the user's own text
    whenever there is one, in every mode; otherwise it is the canned
    instruction of a mode other than [continue].  The canned instruction
    for [continue] is sent only if the user typed it. *)
Theorem prompt_precedence (mode : Mode) (s : State) :
  submit_rejected mode s = false ->
  (truthy (aiPrompt (ui s)) = true -> promptToSend mode s = aiPrompt (ui s)) /\
  (truthy (aiPrompt (ui s)) = false ->
   mode <> Continue /\ promptToSend mode s = canned_prompt mode) /\
  (promptToSend mode s = canned_prompt Continue ->
   aiPrompt (ui s) = canned_prompt Continue).
Proof.
  unfold submit_rejected, promptToSend. intros Hg.
  destruct (truthy (aiPrompt (ui s))) eqn:Hp; simpl in Hg.
  - repeat split; done.
  - apply bool_decide_eq_false_1 in Hg.
    split; [done|]. split; [done|].
    destruct mode; try discriminate. done.
Qed.

Lemma prompt_precedence_witness :
  promptToSend Continue (with_ui (set_aiPrompt (lit "Add a twist")) Samples.fresh)
    = lit "Add a twist".
Proof.
  exact (proj1 (prompt_precedence Continue
                  (with_ui (set_aiPrompt (lit "Add a twist")) Samples.fresh)
                  eq_refl) eq_refl).
Defined.

(** X10: when the backend answers with an absent or empty text, the
    session ends up holding the empty string, and insert then does
    nothing: an empty answer cannot be accepted. *)
Theorem empty_answer_not_insertable
    (execCommand : jsstring -> option jsstring -> Dom -> Dom)
    (env : Env) (mode : Mode) (s : State) (t : option jsstring) :
  submit_rejected mode s = false ->
  truthy_opt (API_KEY env) = true ->
  backend_response env (promptToSend mode s) (capture_context s) mode
    = ResponseText t ->
  truthy_opt t = false ->
  aiResponse (ui (handleAiRequest env mode s)) = Some [] /\
  insertAiContent execCommand (handleAiRequest env mode s)
    = handleAiRequest env mode s.
Proof.
  intros Hg Hkey Hresp Ht.
  destruct (handleAiRequest_holds env mode s Hg Hkey) as [_ Hheld].
  rewrite Hresp in Hheld.
  assert (Hempty : or_else t [] = []) by (by destruct t as [[|c t]|]).
  rewrite Hempty in Hheld. split; [exact Hheld|].
  unfold insertAiContent. by rewrite Hheld.
Qed.

Lemma empty_answer_not_insertable_witness :
  insertAiContent Samples.append_surface
    (handleAiRequest Samples.env_silent Fix Samples.fresh)
  = handleAiRequest Samples.env_silent Fix Samples.fresh.
Proof.
  exact (proj2 (empty_answer_not_insertable Samples.append_surface
                  Samples.env_silent Fix Samples.fresh None
                  eq_refl eq_refl eq_refl eq_refl)).
Defined.

(** X11: a submit made while no credential is configured sends nothing
    to the backend and leaves the session holding the apology, as after a
    backend failure. *)
Theorem submit_without_credential (env : Env) (mode : Mode) (s : State) :
  submit_rejected mode s = false ->
  truthy_opt (API_KEY env) = false ->
  aiResponse (ui (handleAiRequest env mode s)) = Some apology /\
  aiLoading (ui (handleAiRequest env mode s)) = false /\
  dispatched (svc (handleAiRequest env mode s)) = dispatched (svc s).
Proof.
  intros Hg Hkey.
  destruct (handleAiRequest_settled env mode s Hg) as (text & log & Hcall & ->).
  rewrite (generate_missing _ _ _ _ _ Hkey) in Hcall.
  injection Hcall as <- <-. done.
Qed.

Lemma submit_without_credential_witness :
  dispatched (svc (handleAiRequest Samples.env_no_key Summarize Samples.fresh))
    = [].
Proof.
  exact (proj2 (proj2 (submit_without_credential Samples.env_no_key Summarize
                         Samples.fresh eq_refl eq_refl))).
Defined.

Lemma handleInput_session (s : State) :
  aiResponse (ui (handleInput s)) = aiResponse (ui s) /\
  aiPrompt (ui (handleInput s)) = aiPrompt (ui s) /\
  aiLoading (ui (handleInput s)) = aiLoading (ui s) /\
  showAiModal (ui (handleInput s)) = showAiModal (ui s).
Proof.
  unfold handleInput, updateStats.
  destruct s as [r ref [d m ls ws ts nt n] l]. by destruct m, ref.
Qed.

Lemma insert_held_clears
    (execCommand : jsstring -> option jsstring -> Dom -> Dom) (s : State)
    (held : jsstring) :
  aiResponse (ui s) = Some held -> truthy held = true ->
  aiResponse (ui (insertAiContent execCommand s)) = None.
Proof.
  intros E Hheld. unfold insertAiContent. rewrite E, Hheld.
  by rewrite (proj1 (handleInput_session _)).
Qed.

(** X12: insert acts once: a second insert right after the first changes
    nothing, and so does an insert after a discard; a discard changes the
    held text alone and keeps the prompt for another try. *)
Theorem insert_once_discard_keeps
    (execCommand : jsstring -> option jsstring -> Dom -> Dom) (s : State) :
  insertAiContent execCommand (insertAiContent execCommand s)
    = insertAiContent execCommand s /\
  insertAiContent execCommand (discardAiContent s) = discardAiContent s /\
  page (discardAiContent s) = page s /\
  aiPrompt (ui (discardAiContent s)) = aiPrompt (ui s) /\
  saveTimeoutRef (discardAiContent s) = saveTimeoutRef s.
Proof.
  split; [|by repeat split].
  destruct (truthy_opt (aiResponse (ui s))) eqn:Hheld.
  - destruct (aiResponse (ui s)) as [held|] eqn:E; [|done].
    pose proof (insert_held_clears execCommand s held E Hheld) as Hnone.
    unfold insertAiContent at 1. by rewrite Hnone.
  - assert (Hid : insertAiContent execCommand s = s).
    { unfold insertAiContent.
      destruct (aiResponse (ui s)) as [held|]; [|done].
      simpl in Hheld. by rewrite Hheld. }
    by rewrite !Hid.
Qed.

End SessionMore.

(* ===================================================================== *)
(** * Autosave scheduler: further properties *)
(* ===================================================================== *)

Section SchedulerMore.

Open Scope Z_scope.

Lemma advance_to_idle (s : State) (t : Z) :
  timers (page s) = [] ->
  advance_to t s = with_page (fun b => set_now (Z.max (now b) t) b) s.
Proof.
  intros Hts. unfold advance_to. rewrite Hts, !filter_nil. simpl.
  destruct s as [r ref [d m ls ws ts nt n] l]. simpl in *. by subst.
Qed.

(** The whole state after the pending save has run. *)
Lemma armed_fires_eq (s : State) (T : Z) :
  armed s -> editorMounted (page s) = true ->
  now (page s) + SAVE_DELAY <= T ->
  advance_to T s =
    {| ui := set_isSaving false
               (set_lastSaved (Some (now (page s) + SAVE_DELAY)) (ui s));
       saveTimeoutRef := saveTimeoutRef s;
       page := Build_Browser (dom (page s)) true
                 (<[title_key := title (ui s)]>
                    (<[content_key := innerHTML (dom (page s))]>
                       (localStorage (page s))))
                 (writes (page s) ++ save_writes (title (ui s)) (dom (page s)))
                 [] (next_timer (page s)) T;
       svc := svc s |}.
Proof.
  intros (id & Href & Hts) Hm HT.
  rewrite (advance_to_due _ _ _ Hts) by (simpl; lia).
  rewrite run_timer_mounted by exact Hm. unfold_updates.
  unfold SAVE_DELAY, save_writes in *.
  f_equal; [do 3 f_equal; lia | f_equal; lia].
Qed.


(** An edit that arrives exactly when the pending save is due cancels it:
    nothing is written, and the new save is the one pending. *)
Lemma edit_at_deadline_cancels (s : State) (d : Dom) :
  armed s ->
  let s' := user_edit d (advance_before (now (page s) + SAVE_DELAY) s) in
  armed s' /\ writes (page s') = writes (page s).
Proof.
  intros (id & Href & Hts). cbv zeta.
  rewrite (advance_before_early _ _ _ Hts) by (simpl; lia).
  set (s1 := with_page _ s).
  assert (Htr : pending_is_tracked s1).
  { unfold pending_is_tracked, s1. simpl. rewrite Hts, Href.
    by repeat constructor. }
  destruct (user_edit_armed d s1 Htr) as (Ha & Hw & _).
  split; [exact Ha | exact Hw].
Qed.



(** ** Invariants of a run *)

Lemma consistent_tracked (s : State) :
  scheduler_consistent s -> pending_is_tracked s.
Proof.
  unfold pending_is_tracked.
  intros [[-> _] | (tm & -> & -> & _)]; by repeat constructor.
Qed.

Lemma handleInput_consistent (s : State) :
  pending_is_tracked s -> scheduler_consistent (handleInput s).
Proof.
  intros Htr. rewrite (handleInput_eq _ Htr). right.
  exists (save_timer s). by simpl.
Qed.

Lemma handleInput_mounted (s : State) :
  editorMounted (page (handleInput s)) = editorMounted (page s).
Proof.
  unfold handleInput, updateStats.
  destruct s as [r ref [d m ls ws ts nt n] l]. by destruct m, ref.
Qed.

Lemma handleInput_stats (s : State) :
  editorMounted (page s) = true -> stats_current (handleInput s).
Proof.
  unfold stats_current, handleInput, updateStats.
  destruct s as [r ref [d m ls ws ts nt n] l]. simpl. intros ->.
  destruct ref; simpl; by destruct (innerText d).
Qed.

(** What a timer callback leaves alone. *)
Lemma run_timer_keeps (tm : Timer) (s : State) :
  dom (page (run_timer tm s)) = dom (page s) /\
  editorMounted (page (run_timer tm s)) = editorMounted (page s) /\
  stats (ui (run_timer tm s)) = stats (ui s).
Proof.
  unfold run_timer, save_callback.
  destruct s as [r ref [d m ls ws ts nt n] l]. by destruct m.
Qed.

Lemma run_timers_keep (due : list Timer) (s : State) :
  dom (page (foldl (fun s tm => run_timer tm s) s due)) = dom (page s) /\
  editorMounted (page (foldl (fun s tm => run_timer tm s) s due))
    = editorMounted (page s) /\
  stats (ui (foldl (fun s tm => run_timer tm s) s due)) = stats (ui s).
Proof.
  revert s. induction due as [|tm due IH]; intros s; [done|]. simpl.
  destruct (IH (run_timer tm s)) as (-> & -> & ->). apply run_timer_keeps.
Qed.

Lemma advance_to_keeps (t : Z) (s : State) :
  dom (page (advance_to t s)) = dom (page s) /\
  editorMounted (page (advance_to t s)) = editorMounted (page s) /\
  stats (ui (advance_to t s)) = stats (ui s).
Proof.
  unfold advance_to. simpl.
  exact (run_timers_keep _ (with_page (set_timers _) s)).
Qed.

Lemma advance_to_consistent (t : Z) (s : State) :
  editorMounted (page s) = true ->
  scheduler_consistent s -> scheduler_consistent (advance_to t s).
Proof.
  intros Hm [[Hts Hsav] | (tm & Hts & Href & Hsav)].
  - rewrite (advance_to_idle _ _ Hts). by left.
  - destruct (Z_lt_le_dec t (deadline tm)) as [Hlt | Hle].
    + rewrite (advance_to_early _ _ _ Hts Hlt). right. by exists tm.
    + rewrite (advance_to_due _ _ _ Hts Hle).
      rewrite run_timer_mounted by exact Hm. by left.
Qed.

Lemma step_mounted (execCommand : jsstring -> option jsstring -> Dom -> Dom)
    (env : Gemini.Env) (e : Event) (s : State) :
  editorMounted (page (step execCommand env e s)) = editorMounted (page s).
Proof.
  destruct e; cbn [step]; try done.
  - unfold user_edit. by rewrite handleInput_mounted.
  - unfold changeTitle. by case_decide.
  - unfold format. by rewrite handleInput_mounted.
  - by rewrite (proj1 (handleAiRequest_frame env mode s)).
  - unfold insertAiContent. destruct (aiResponse (ui s)) as [held|]; [|done].
    destruct (truthy held); [|done]. by rewrite handleInput_mounted.
  - apply advance_to_keeps.
Qed.

Lemma step_consistent (execCommand : jsstring -> option jsstring -> Dom -> Dom)
    (env : Gemini.Env) (e : Event) (s : State) :
  editorMounted (page s) = true ->
  scheduler_consistent s -> scheduler_consistent (step execCommand env e s).
Proof.
  intros Hm Hc. pose proof (consistent_tracked _ Hc) as Htr.
  destruct e; cbn [step]; try exact Hc.
  - by apply handleInput_consistent.
  - unfold changeTitle. by case_decide.
  - by apply handleInput_consistent.
  - destruct (submit_rejected mode s) eqn:Hg.
    + unfold handleAiRequest. by rewrite Hg.
    + by destruct (handleAiRequest_settled env mode s Hg)
        as (text & log & _ & ->).
  - unfold insertAiContent. destruct (aiResponse (ui s)) as [held|]; [|exact Hc].
    destruct (truthy held); [|exact Hc]. by apply handleInput_consistent.
  - by apply advance_to_consistent.
Qed.

Lemma step_stats (execCommand : jsstring -> option jsstring -> Dom -> Dom)
    (env : Gemini.Env) (e : Event) (s : State) :
  editorMounted (page s) = true ->
  stats_current s -> stats_current (step execCommand env e s).
Proof.
  intros Hm Hc. destruct e; cbn [step]; try exact Hc.
  - by apply handleInput_stats.
  - unfold changeTitle. by case_decide.
  - by apply handleInput_stats.
  - destruct (submit_rejected mode s) eqn:Hg.
    + unfold handleAiRequest. by rewrite Hg.
    + by destruct (handleAiRequest_settled env mode s Hg)
        as (text & log & _ & ->).
  - unfold insertAiContent. destruct (aiResponse (ui s)) as [held|]; [|exact Hc].
    destruct (truthy held); [|exact Hc]. by apply handleInput_stats.
  - unfold stats_current.
    by destruct (advance_to_keeps t s) as (-> & _ & ->).
Qed.

(** X14: along every run of a mounted component, at most one save is
    pending, its handle is the one in [saveTimeoutRef], and the saving
    flag is on exactly while it is pending. *)
Theorem saving_flag_tracks_pending
    (execCommand : jsstring -> option jsstring -> Dom -> Dom)
    (env : Gemini.Env) (es : list Event) (s : State) :
  editorMounted (page s) = true ->
  scheduler_consistent s ->
  scheduler_consistent (run execCommand env es s).
Proof.
  revert s. induction es as [|e es IH]; intros s Hm Hc; [exact Hc|].
  apply IH; [by rewrite step_mounted | by apply step_consistent].
Qed.

Lemma saving_flag_tracks_pending_witness :
  scheduler_consistent
    (run Samples.append_surface Samples.env_ok
       [Edit (Samples.dom_of (lit "a")); ChangeTitle (lit "Notes");
        Wait 400; Format (lit "bold") None; Wait 2000; Submit Gemini.Fix;
        Insert] Samples.fresh).
Proof.
  apply (saving_flag_tracks_pending Samples.append_surface Samples.env_ok
           _ Samples.fresh eq_refl).
  left. split; reflexivity.
Defined.

(** X15: along every run of a mounted component, the counts on display
    are those of the text that is on the surface. *)
Theorem stats_follow_surface
    (execCommand : jsstring -> option jsstring -> Dom -> Dom)
    (env : Gemini.Env) (es : list Event) (s : State) :
  editorMounted (page s) = true ->
  stats_current s ->
  stats_current (run execCommand env es s).
Proof.
  revert s. induction es as [|e es IH]; intros s Hm Hc; [exact Hc|].
  apply IH; [by rewrite step_mounted | by apply step_stats].
Qed.

Lemma stats_follow_surface_witness :
  stats (ui (run Samples.append_surface Samples.env_ok
               [Edit (Samples.dom_of (lit "Hello")); Wait 3000;
                Submit Gemini.Fix; Insert] Samples.fresh))
  = {| words := 2; chars := 16 |}.
Proof.
  pose proof (stats_follow_surface Samples.append_surface Samples.env_ok
                [Edit (Samples.dom_of (lit "Hello")); Wait 3000;
                 Submit Gemini.Fix; Insert] Samples.fresh eq_refl eq_refl) as H.
  unfold stats_current in H. rewrite H. reflexivity.
Defined.

(** ** Formatting and acceptance as edit events *)

Lemma format_is_edit (execCommand : jsstring -> option jsstring -> Dom -> Dom)
    (command : jsstring) (value : option jsstring) (s : State) :
  format execCommand command value s =
    user_edit (execCommand command value (dom (page s))) s.
Proof. reflexivity. Qed.

(** X16: a formatting command is an edit event for the scheduler: it
    refreshes the counts from the surface as the command left it and arms
    one save, which, once the delay has passed, stores the markup the
    command produced. *)
Theorem format_is_saved (execCommand : jsstring -> option jsstring -> Dom -> Dom)
    (command : jsstring) (value : option jsstring) (s : State) :
  pending_is_tracked s ->
  editorMounted (page s) = true ->
  let d := execCommand command value (dom (page s)) in
  let s1 := format execCommand command value s in
  armed s1 /\
  stats (ui s1) = computeStats (innerText d) /\
  writes (page s1) = writes (page s) /\
  forall T, now (page s) + SAVE_DELAY <= T ->
    writes (page (advance_to T s1)) =
      writes (page s) ++ save_writes (title (ui s)) d /\
    localStorage (page (advance_to T s1)) !! content_key = Some (innerHTML d).
Proof.
  intros Htr Hm. cbv zeta. rewrite format_is_edit.
  set (d := execCommand command value (dom (page s))).
  destruct (user_edit_armed d s Htr) as (Ha & Hw & _ & Hd & Ht & Hm1 & Hn).
  rewrite Hm in Hm1.
  split; [exact Ha|]. split.
  { pose proof (handleInput_stats (with_page (set_dom d) s) Hm) as Hs.
    unfold stats_current in Hs. fold (user_edit d s) in Hs.
    by rewrite Hd in Hs. }
  split; [exact Hw|]. intros T HT.
  remember (user_edit d s) as s1 eqn:Es1.
  rewrite (armed_fires_eq _ T Ha Hm1) by (by rewrite Hn). simpl.
  rewrite Hw, Hd, Ht. split; [done|].
  by rewrite lookup_insert_ne, lookup_insert_eq.
Qed.

Lemma format_is_saved_witness :
  armed (format Samples.append_surface (lit "bold") None Samples.fresh).
Proof.
  exact (proj1 (format_is_saved Samples.append_surface (lit "bold") None
                  Samples.fresh fresh_tracked eq_refl)).
Defined.

(** X17: accepting a held answer is an edit event for the scheduler:
    once the delay has passed, the store holds the markup of the surface
    with the answer inserted, and no answer is held any more. *)
Theorem accepted_answer_is_saved
    (execCommand : jsstring -> option jsstring -> Dom -> Dom)
    (s : State) (held : jsstring) :
  pending_is_tracked s ->
  editorMounted (page s) = true ->
  aiResponse (ui s) = Some held ->
  truthy held = true ->
  let d := execCommand (lit "insertText") (Some held) (dom (page s)) in
  let s1 := insertAiContent execCommand s in
  armed s1 /\
  stats (ui s1) = computeStats (innerText d) /\
  forall T, now (page s) + SAVE_DELAY <= T ->
    writes (page (advance_to T s1)) =
      writes (page s) ++ save_writes (title (ui s)) d /\
    localStorage (page (advance_to T s1)) !! content_key = Some (innerHTML d) /\
    aiResponse (ui (advance_to T s1)) = None.
Proof.
  intros Htr Hm Hheld Htruthy. cbv zeta.
  set (d := execCommand (lit "insertText") (Some held) (dom (page s))).
  set (cleared := with_ui (set_showAiModal false)
                    (with_ui (set_aiPrompt [])
                       (with_ui (set_aiResponse None) s))).
  assert (E : insertAiContent execCommand s = user_edit d cleared).
  { unfold insertAiContent. by rewrite Hheld, Htruthy. }
  rewrite E.
  assert (Htr' : pending_is_tracked cleared) by exact Htr.
  destruct (user_edit_armed d cleared Htr') as (Ha & Hw & _ & Hd & Ht & Hm1 & Hn).
  change (editorMounted (page cleared)) with (editorMounted (page s)) in Hm1.
  rewrite Hm in Hm1.
  split; [exact Ha|]. split.
  { pose proof (handleInput_stats (with_page (set_dom d) cleared) Hm) as Hs.
    unfold stats_current in Hs. fold (user_edit d cleared) in Hs.
    by rewrite Hd in Hs. }
  intros T HT.
  assert (Hnone : aiResponse (ui (user_edit d cleared)) = None).
  { unfold user_edit. by rewrite (proj1 (handleInput_session _)). }
  remember (user_edit d cleared) as s1 eqn:Es1.
  rewrite (armed_fires_eq _ T Ha Hm1) by (by rewrite Hn). simpl.
  rewrite Hw, Hd, Ht. split; [done|]. split.
  - by rewrite lookup_insert_ne, lookup_insert_eq.
  - exact Hnone.
Qed.

Lemma accepted_answer_is_saved_witness :
  localStorage (page (advance_to 1000
                        (insertAiContent Samples.append_surface
                           Samples.responded))) !! content_key
  = Some (lit "<p></p>Draft text.").
Proof.
  assert (Htr : pending_is_tracked Samples.responded) by constructor.
  pose proof (accepted_answer_is_saved Samples.append_surface
                Samples.responded (lit "Draft text.") Htr eq_refl eq_refl
                eq_refl) as (_ & _ & H).
  cbv zeta in H. destruct (H 1000) as (_ & Hs & _); [vm_compute; discriminate|].
  exact Hs.
Defined.

(** X18: a save that comes due after the editing surface is gone writes
    nothing and is not scheduled again: the store and the write trace are
    as before, no timer is left, and the saving flag stays on. *)
Theorem orphaned_save_is_lost (s : State) (T : Z) :
  armed s ->
  editorMounted (page s) = false ->
  now (page s) + SAVE_DELAY <= T ->
  writes (page (advance_to T s)) = writes (page s) /\
  localStorage (page (advance_to T s)) = localStorage (page s) /\
  timers (page (advance_to T s)) = [] /\
  isSaving (ui (advance_to T s)) = isSaving (ui s) /\
  lastSaved (ui (advance_to T s)) = lastSaved (ui s).
Proof.
  intros (id & Href & Hts) Hm HT.
  rewrite (advance_to_due _ _ _ Hts) by (simpl; lia).
  unfold run_timer, save_callback.
  destruct s as [r ref [d m ls ws ts nt n] l]. simpl in *. by subst m.
Qed.

Lemma orphaned_save_is_lost_witness :
  writes (page (advance_to 1000 Samples.orphaned)) = [] /\
  isSaving (ui (advance_to 1000 Samples.orphaned)) = true.
Proof.
  assert (Ha : armed Samples.orphaned) by (by exists 1%positive).
  assert (HT : now (page Samples.orphaned) + SAVE_DELAY <= 1000)
    by (vm_compute; discriminate).
  destruct (orphaned_save_is_lost Samples.orphaned 1000 Ha eq_refl HT)
    as (Hw & _ & _ & Hs & _).
  split; [exact Hw | exact Hs].
Defined.

Lemma changeTitle_shows (v : jsstring) (s : State) :
  title (ui (changeTitle v s)) = v /\
  editorMounted (page (changeTitle v s)) = editorMounted (page s) /\
  now (page (changeTitle v s)) = now (page s).
Proof. unfold changeTitle. by case_decide. Qed.

(** X22: an edit made after a title change schedules a save that
    captures the new title: once the delay has passed, the store holds
    the title the user sees. *)
Theorem edit_recaptures_title (s : State) (v : jsstring) (d : Dom) :
  pending_is_tracked s ->
  editorMounted (page s) = true ->
  let s2 := user_edit d (changeTitle v s) in
  forall T, now (page s) + SAVE_DELAY <= T ->
    title (ui (advance_to T s2)) = v /\
    localStorage (page (advance_to T s2)) !! title_key = Some v /\
    localStorage (page (advance_to T s2)) !! content_key = Some (innerHTML d).
Proof.
  intros Htr Hm. cbv zeta. intros T HT.
  destruct (changeTitle_shows v s) as (Hv & Hm1 & Hn1).
  pose proof (changeTitle_tracked v s Htr) as Htr1.
  destruct (user_edit_armed d _ Htr1) as (Ha & _ & _ & Hd & Ht & Hm2 & Hn2).
  rewrite Hm1, Hm in Hm2. rewrite Hv in Ht. rewrite Hn1 in Hn2.
  remember (user_edit d (changeTitle v s)) as s2 eqn:Es2.
  rewrite (armed_fires_eq _ T Ha Hm2) by (by rewrite Hn2). simpl.
  rewrite Ht, Hd. split; [done|]. split.
  - apply lookup_insert_eq.
  - by rewrite lookup_insert_ne, lookup_insert_eq.
Qed.

Lemma edit_recaptures_title_witness :
  localStorage (page (advance_to 1500
                        (user_edit (Samples.dom_of (lit "Hello!"))
                           (changeTitle (lit "Notes") Samples.typing))))
    !! title_key
  = Some (lit "Notes").
Proof.
  assert (Htr : pending_is_tracked Samples.typing)
    by (apply handleInput_tracked; constructor).
  pose proof (edit_recaptures_title Samples.typing (lit "Notes")
                (Samples.dom_of (lit "Hello!")) Htr eq_refl) as H.
  cbv zeta in H. destruct (H 1500) as (_ & Hs & _); [vm_compute; discriminate|].
  exact Hs.
Defined.

End SchedulerMore.

(* ===================================================================== *)
(** * Loading: properties *)
(* ===================================================================== *)

Section LoadingFacts.

Lemma load_effect_keeps (setInnerHTML : jsstring -> Dom -> Dom) (s : State) :
  title (ui (load_effect setInnerHTML s)) = title (ui s) /\
  isSaving (ui (load_effect setInnerHTML s)) = isSaving (ui s) /\
  saveTimeoutRef (load_effect setInnerHTML s) = saveTimeoutRef s /\
  localStorage (page (load_effect setInnerHTML s)) = localStorage (page s) /\
  writes (page (load_effect setInnerHTML s)) = writes (page s) /\
  timers (page (load_effect setInnerHTML s)) = timers (page s) /\
  editorMounted (page (load_effect setInnerHTML s)) = editorMounted (page s).
Proof.
  unfold load_effect, updateStats.
  destruct s as [r ref [d m ls ws ts nt n] l]. simpl.
  destruct (truthy_opt (ls !! content_key)), m; done.
Qed.

Lemma load_effect_surface (setInnerHTML : jsstring -> Dom -> Dom) (s : State) :
  editorMounted (page s) = true ->
  dom (page (load_effect setInnerHTML s)) =
    setInnerHTML (or_else (localStorage (page s) !! content_key) EMPTY_DOCUMENT)
      (dom (page s)) /\
  stats_current (load_effect setInnerHTML s).
Proof.
  unfold load_effect, updateStats, stats_current.
  destruct s as [r ref [d m ls ws ts nt n] l]. simpl. intros ->.
  destruct (truthy_opt (ls !! content_key)); simpl;
    by destruct (innerText (setInnerHTML _ d)).
Qed.

Lemma mount_title (setInnerHTML : jsstring -> Dom -> Dom)
    (b : Browser) (l : Gemini.Log) :
  title (ui (mount setInnerHTML b l)) =
    or_else (localStorage b !! title_key) (lit "Untitled document") /\
  localStorage (page (mount setInnerHTML b l)) !! title_key =
    Some (title (ui (mount setInnerHTML b l))).
Proof.
  unfold mount.
  set (s0 := Build_State initial_ui None b l).
  destruct (load_effect_keeps setInnerHTML s0) as (Ht & _).
  rewrite Ht. change (title (ui s0)) with (lit "Untitled document").
  set (s2 := with_page _ (load_effect setInnerHTML s0)).
  assert (Ht2 : title (ui s2) = lit "Untitled document") by exact Ht.
  assert (Hs2 : localStorage (page s2) !! title_key
                = Some (lit "Untitled document")).
  { unfold s2. unfold_updates. apply lookup_insert_eq. }
  clearbody s2.
  destruct (localStorage b !! title_key) as [t|]; simpl; [|by rewrite Ht2].
  destruct (truthy t) eqn:Htruthy; [|by rewrite Ht2].
  unfold changeTitle. rewrite Ht2. case_decide as E.
  - by rewrite Ht2, E.
  - unfold_updates. split; [done | apply lookup_insert_eq].
Qed.

Lemma mount_keeps (setInnerHTML : jsstring -> Dom -> Dom)
    (b : Browser) (l : Gemini.Log) :
  dom (page (mount setInnerHTML b l)) =
    dom (page (load_effect setInnerHTML (Build_State initial_ui None b l))) /\
  stats (ui (mount setInnerHTML b l)) =
    stats (ui (load_effect setInnerHTML (Build_State initial_ui None b l))) /\
  localStorage (page (mount setInnerHTML b l)) !! content_key =
    localStorage b !! content_key /\
  timers (page (mount setInnerHTML b l)) = timers b /\
  saveTimeoutRef (mount setInnerHTML b l) = None /\
  isSaving (ui (mount setInnerHTML b l)) = false /\
  editorMounted (page (mount setInnerHTML b l)) = editorMounted b.
Proof.
  unfold mount.
  set (s0 := Build_State initial_ui None b l).
  destruct (load_effect_keeps setInnerHTML s0)
    as (_ & Hsav & Href & Hls & _ & Hts & Hm).
  set (s2 := with_page _ (load_effect setInnerHTML s0)).
  assert (H2 : dom (page s2) = dom (page (load_effect setInnerHTML s0)) /\
               stats (ui s2) = stats (ui (load_effect setInnerHTML s0)) /\
               localStorage (page s2) !! content_key = localStorage b !! content_key /\
               timers (page s2) = timers b /\
               saveTimeoutRef s2 = None /\
               isSaving (ui s2) = false /\
               editorMounted (page s2) = editorMounted b).
  { unfold s2. unfold_updates. rewrite lookup_insert_ne by done.
    by rewrite Hls, Hts, Href, Hsav, Hm. }
  clearbody s2.
  destruct (truthy_opt (localStorage b !! title_key)); [|exact H2].
  unfold changeTitle. case_decide; [exact H2|].
  unfold_updates. rewrite lookup_insert_ne by done. exact H2.
Qed.

(** X19: after loading, the title shown is the stored title if there is
    a non-empty one and [Untitled document] otherwise, and the store holds
    the title shown: an absent or empty stored title is replaced by the
    default. *)
Theorem load_restores_title (setInnerHTML : jsstring -> Dom -> Dom)
    (b : Browser) (l : Gemini.Log) :
  title (ui (mount setInnerHTML b l)) =
    or_else (localStorage b !! title_key) (lit "Untitled document") /\
  localStorage (page (mount setInnerHTML b l)) !! title_key =
    Some (title (ui (mount setInnerHTML b l))) /\
  (truthy_opt (localStorage b !! title_key) = false ->
   localStorage (page (mount setInnerHTML b l)) !! title_key =
     Some (lit "Untitled document")).
Proof.
  destruct (mount_title setInnerHTML b l) as [Ht Hs].
  split; [exact Ht|]. split; [exact Hs|].
  intros Hnone. rewrite Hs, Ht.
  by destruct (localStorage b !! title_key) as [[|c t]|].
Qed.

(** X20: loading hands the surface the stored markup, or the empty
    paragraph when none or an empty one is stored, and shows the counts of
    the text that results; it writes no content to the store, schedules no
    save and leaves the saving flag off. *)
Theorem load_fills_surface (setInnerHTML : jsstring -> Dom -> Dom)
    (b : Browser) (l : Gemini.Log) :
  editorMounted b = true ->
  let s := mount setInnerHTML b l in
  dom (page s) =
    setInnerHTML (or_else (localStorage b !! content_key) EMPTY_DOCUMENT)
      (dom b) /\
  stats_current s /\
  localStorage (page s) !! content_key = localStorage b !! content_key /\
  timers (page s) = timers b /\
  saveTimeoutRef s = None /\
  isSaving (ui s) = false /\
  (timers b = [] -> scheduler_consistent s).
Proof.
  intros Hm. cbv zeta.
  destruct (mount_keeps setInnerHTML b l)
    as (Hd & Hst & Hls & Hts & Href & Hsav & _).
  destruct (load_effect_surface setInnerHTML (Build_State initial_ui None b l) Hm)
    as (Hd' & Hst').
  unfold stats_current in *. rewrite Hd, Hst.
  repeat split; try done.
  intros Hnil. left. by rewrite Hts, Hnil.
Qed.

Lemma load_fills_surface_witness :
  dom (page (mount Samples.literal_surface Samples.blank_browser
               Gemini.no_effects))
  = {| innerHTML := EMPTY_DOCUMENT; innerText := EMPTY_DOCUMENT;
       selectionText := [] |}.
Proof.
  exact (proj1 (load_fills_surface Samples.literal_surface
                  Samples.blank_browser Gemini.no_effects eq_refl)).
Defined.

(** X21: what the scheduler saved is what the next load restores: in a
    browser whose store is the one the save left, the component mounts
    with the saved title, if not empty, and hands the surface the saved
    markup, if not empty. *)
Theorem saved_document_reloads (setInnerHTML : jsstring -> Dom -> Dom)
    (s : State) (T : Z) (b : Browser) (l : Gemini.Log) :
  armed s ->
  editorMounted (page s) = true ->
  (now (page s) + SAVE_DELAY <= T)%Z ->
  localStorage b = localStorage (page (advance_to T s)) ->
  editorMounted b = true ->
  title (ui (mount setInnerHTML b l)) =
    or_else (Some (title (ui s))) (lit "Untitled document") /\
  dom (page (mount setInnerHTML b l)) =
    setInnerHTML (or_else (Some (innerHTML (dom (page s)))) EMPTY_DOCUMENT)
      (dom b).
Proof.
  intros Ha Hm HT Hls Hmb.
  rewrite (armed_fires_eq s T Ha Hm HT) in Hls. simpl in Hls.
  destruct (mount_title setInnerHTML b l) as [Ht _].
  destruct (mount_keeps setInnerHTML b l) as (Hd & _).
  destruct (load_effect_surface setInnerHTML (Build_State initial_ui None b l) Hmb)
    as (Hd' & _).
  rewrite Ht, Hd, Hd'. simpl. rewrite Hls.
  by rewrite lookup_insert_eq, lookup_insert_ne, lookup_insert_eq.
Qed.

Lemma saved_document_reloads_witness :
  let saved := advance_to 1000
                 (user_edit (Samples.dom_of (lit "Hello"))
                    (changeTitle (lit "Notes") Samples.fresh)) in
  let reloaded := mount Samples.literal_surface
                    (Build_Browser (dom Samples.blank_browser) true
                       (localStorage (page saved)) [] [] 1%positive 0)
                    Gemini.no_effects in
  title (ui reloaded) = lit "Notes" /\
  innerHTML (dom (page reloaded)) = lit "<p>Hello</p>".
Proof.
  cbv zeta.
  set (s := user_edit (Samples.dom_of (lit "Hello"))
              (changeTitle (lit "Notes") Samples.fresh)).
  assert (Ha : armed s) by (by exists 1%positive).
  assert (HT : (now (page s) + SAVE_DELAY <= 1000)%Z) by (vm_compute; discriminate).
  destruct (saved_document_reloads Samples.literal_surface s 1000
              (Build_Browser (dom Samples.blank_browser) true
                 (localStorage (page (advance_to 1000 s))) [] [] 1%positive 0)
              Gemini.no_effects Ha eq_refl HT eq_refl eq_refl) as [Ht Hd].
  split; [exact Ht | by rewrite Hd].
Defined.

End LoadingFacts.
